(** * py-x402: the client side of the x402 payment handshake

    A shallow embedding of [x402/core/enums.py], [x402/core/errors.py],
    [x402/core/models.py], [x402/client/signer.py] and
    [x402/client/base.py], and the properties of the negotiation and
    authorization-construction pipeline.

    Python values are an inductive type of objects; exceptions are values of
    [exn] carried by [Raise]; the effects of the program (the clock, the
    randomness source, the HTTP session, the signing account, the header
    dictionaries shared with the caller) are threaded through a state and
    exception monad over [World]. *)

From Stdlib Require Import ZArith QArith String Ascii List Lia.
From Stdlib Require Import DecimalString HexadecimalString.
From Stdlib Require Import DecimalPos DecimalZ.
From Stdlib Require Import Strings.Byte.
From Stdlib Require Import Floats.SpecFloat.
From stdpp Require Import gmap strings.

Set Warnings "-register-all".

Open Scope Z_scope.
Open Scope string_scope.

(** ** core/enums.py *)

(** [class PaymentScheme(Enum)]: one member. *)
Inductive PaymentScheme := EXACT.

(** [class PaymentNetwork(Enum)]: four members. *)
Inductive PaymentNetwork :=
| BASE_SEPOLIA
| BASE_MAINNET
| ETHEREUM_SEPOLIA
| ETHEREUM_MAINNET.

(** The [.value] of each member. *)
Definition PaymentScheme_value (s : PaymentScheme) : string :=
  match s with EXACT => "exact" end.

Definition PaymentNetwork_value (n : PaymentNetwork) : string :=
  match n with
  | BASE_SEPOLIA => "base-sepolia"
  | BASE_MAINNET => "base-mainnet"
  | ETHEREUM_SEPOLIA => "ethereum-sepolia"
  | ETHEREUM_MAINNET => "ethereum-mainnet"
  end.

(** ** Python objects

    The objects the program handles: what [response.json()] decodes
    ([None], [bool], [int], [float], [str], [list], [dict] with string
    keys, in insertion order) and the members of the two enumerations,
    which are plain [Enum] objects and not strings. A [float] is an IEEE
    binary64 value, [spec_float]. *)
Inductive pyobj :=
| PyNone
| PyBool (b : bool)
| PyInt (n : Z)
| PyFloat (f : spec_float)
| PyStr (s : string)
| PyList (l : list pyobj)
| PyDict (items : list (string * pyobj))
| PyScheme (s : PaymentScheme)
| PyNetwork (n : PaymentNetwork).

Abbreviation pydict := (list (string * pyobj)).

(** [d.get(key)] / [key in d] on a dict kept as its item list. *)
Fixpoint dict_get (key : string) (items : pydict) : option pyobj :=
  match items with
  | [] => None
  | (k, v) :: rest => if String.eqb k key then Some v else dict_get key rest
  end.

(** [type(o).__name__], as the interpreter prints it in error messages. *)
Definition type_name (o : pyobj) : string :=
  match o with
  | PyNone => "NoneType"
  | PyBool _ => "bool"
  | PyInt _ => "int"
  | PyFloat _ => "float"
  | PyStr _ => "str"
  | PyList _ => "list"
  | PyDict _ => "dict"
  | PyScheme _ => "PaymentScheme"
  | PyNetwork _ => "PaymentNetwork"
  end.

(** ** core/models.py: the data model *)

(** [class PaymentRequirement(BaseModel)], fields under their Python names. *)
Record PaymentRequirement := {
  scheme : PaymentScheme;
  network : PaymentNetwork;
  max_amount_required : string;
  resource : string;
  description : string;
  mime_type : string;
  pay_to : string;
  max_timeout_seconds : Z;
  asset : string;
  output_schema : option pydict;
  extra : option pydict
}.

(** [class PaymentRequiredResponse(BaseModel)]. *)
Record PaymentRequiredResponse := {
  response_x402_version : Z;
  accepts : list PaymentRequirement;
  error : option string
}.

(** [class PaymentPayload(BaseModel)]; [scheme] and [network] hold the
    enumeration members themselves. *)
Record PaymentPayload := {
  x402_version : Z;
  payload_scheme : PaymentScheme;
  payload_network : PaymentNetwork;
  payload : pydict
}.

(** ** Exceptions

    [JSONDecodeError] (raised by [response.json()]) and pydantic's
    [ValidationError] are subclasses of [ValueError]; the clause
    [except (ValueError, KeyError)] catches them. [ValidationError] carries
    the wire names of the failing fields, or none when the input is not a
    dict at all.

    core/errors.py: [X402PaymentRequiredError(message, requirements)]
    derives from [Exception] only. Its two messages are f-strings over a
    decoded body and over a caught exception; they are kept structured:
    [Payment_required data] stands for [f"Payment required: {data}"] and
    [Invalid_402_response e] for [f"Invalid 402 response: {e}"]. *)
Inductive exn :=
| ValueError (msg : string)
| JSONDecodeError (msg : string)
| ValidationError (fields : list string)
| KeyError (key : string)
| TypeError (msg : string)
| X402PaymentRequiredError (message : x402_message)
                           (requirements : list PaymentRequirement)
with x402_message :=
| Payment_required (data : pyobj)
| Invalid_402_response (e : exn).

(** [isinstance(e, (ValueError, KeyError))]. *)
Definition is_ValueError_or_KeyError (e : exn) : bool :=
  match e with
  | ValueError _ | JSONDecodeError _ | ValidationError _ | KeyError _ => true
  | TypeError _ | X402PaymentRequiredError _ _ => false
  end.

(** The outcome of a Python call: a value or a raised exception. *)
Inductive result (A : Type) :=
| Ok (a : A)
| Raise (e : exn).
Arguments Ok {A} a.
Arguments Raise {A} e.

Definition rbind {A B} (r : result A) (k : A -> result B) : result B :=
  match r with
  | Ok a => k a
  | Raise e => Raise e
  end.

Notation "'let?' x ':=' r 'in' k" := (rbind r (fun x => k))
  (at level 10, x name, r at level 100, k at level 200).

(** ** Text encodings of the Python runtime

    A Python [str] is kept as the string of its UTF-8 bytes, so that
    [s.encode()] is the byte list of [s] and [b.decode()] of ASCII bytes is
    the string of those bytes. *)

(** [str(n)] for an [int]. *)
Definition py_str_int (n : Z) : string :=
  DecimalString.NilZero.string_of_int (Z.to_int n).

(** [hex(n)] for an [int]: lower-case digits after [0x], the sign first. *)
Definition py_hex (n : Z) : string :=
  (if (n <? 0)%Z then "-" else EmptyString) +:+ "0x" +:+
  HexadecimalString.NilZero.string_of_uint (N.to_hex_uint (Z.abs_N n)).

Definition hex_digit (n : N) : ascii :=
  match n with
  | 0 => "0" | 1 => "1" | 2 => "2" | 3 => "3" | 4 => "4" | 5 => "5"
  | 6 => "6" | 7 => "7" | 8 => "8" | 9 => "9" | 10 => "a" | 11 => "b"
  | 12 => "c" | 13 => "d" | 14 => "e" | _ => "f"
  end%N%char.

Definition hex_of_byte (b : byte) : string :=
  String (hex_digit (Byte.to_N b / 16))
         (String (hex_digit (Byte.to_N b mod 16)) EmptyString).

(** [bytes.hex()]: two lower-case digits per byte. *)
Fixpoint hexlify (bs : list byte) : string :=
  match bs with
  | [] => EmptyString
  | b :: rest => hex_of_byte b +:+ hexlify rest
  end.

Definition is_hex_digit (c : ascii) : bool :=
  let n := N_of_ascii c in
  ((48 <=? n) && (n <=? 57) || (97 <=? n) && (n <=? 102))%N.

(** The value of one hexadecimal digit, and the byte two of them spell. *)
Definition hex_value (c : ascii) : option N :=
  let n := N_of_ascii c in
  if ((48 <=? n) && (n <=? 57))%N then Some (n - 48)%N
  else if ((97 <=? n) && (n <=? 102))%N then Some (n - 87)%N
  else None.

Fixpoint unhexlify (s : string) : option (list byte) :=
  match s with
  | EmptyString => Some []
  | String hi (String lo rest) =>
      match hex_value hi, hex_value lo, unhexlify rest with
      | Some h, Some l, Some bs =>
          match Byte.of_N (16 * h + l) with
          | Some b => Some (b :: bs)
          | None => None
          end
      | _, _, _ => None
      end
  | String _ EmptyString => None
  end.

(** [",".join(parts)]. *)
Fixpoint join (sep : string) (parts : list string) : string :=
  match parts with
  | [] => EmptyString
  | [p] => p
  | p :: rest => p +:+ sep +:+ join sep rest
  end.

(** *** base64.b64encode *)

Definition b64_alphabet : string :=
  "ABCDEFGHIJKLMNOPQRSTUVWXYZabcdefghijklmnopqrstuvwxyz0123456789+/".

Definition b64_char (n : N) : ascii :=
  match String.get (N.to_nat n) b64_alphabet with
  | Some c => c
  | None => "="%char
  end.

(** Three bytes give four characters; a last group of one or two bytes is
    padded with [=]. No line breaks are inserted. *)
Fixpoint b64encode (bs : list byte) : string :=
  match bs with
  | [] => EmptyString
  | [a] =>
      let n := Byte.to_N a in
      String (b64_char (n / 4))
        (String (b64_char (n mod 4 * 16)) "==")
  | [a; b] =>
      let n := (Byte.to_N a * 256 + Byte.to_N b)%N in
      String (b64_char (n / 1024))
        (String (b64_char (n / 16 mod 64))
          (String (b64_char (n mod 16 * 4)) "="))
  | a :: b :: c :: rest =>
      let n := (Byte.to_N a * 65536 + Byte.to_N b * 256 + Byte.to_N c)%N in
      String (b64_char (n / 262144))
        (String (b64_char (n / 4096 mod 64))
          (String (b64_char (n / 64 mod 64))
            (String (b64_char (n mod 64)) (b64encode rest))))
  end.

(** *** json.dumps

    The two leaf encoders of the [json] module and pydantic's lax
    conversion of a non-[int] input to [int] are library code; they are
    taken as they are. *)
Record PyLib := {
  (** [json.encoder.encode_basestring_ascii]: quotes and escapes a [str] *)
  encode_basestring_ascii : string -> string;
  (** the encoder's [floatstr]: [float.__repr__], or NaN and Infinity *)
  floatstr : spec_float -> string;
  (** pydantic's [int] validator in lax mode, on an input that is not an [int] *)
  int_lax : pyobj -> option Z
}.

Section Json.
Variable lib : PyLib.

(** [json.dumps(o, separators=(',', ':'))]. The default encoder knows
    [None], [bool], [int], [float], [str], [list] and [dict]; any other
    object, a member of a plain [Enum] among them, raises [TypeError]. *)
Fixpoint json_dumps (o : pyobj) : result string :=
  match o with
  | PyNone => Ok "null"
  | PyBool true => Ok "true"
  | PyBool false => Ok "false"
  | PyInt n => Ok (py_str_int n)
  | PyFloat f => Ok (floatstr lib f)
  | PyStr s => Ok (encode_basestring_ascii lib s)
  | PyList l =>
      let fix elements (l : list pyobj) : result (list string) :=
        match l with
        | [] => Ok []
        | x :: rest =>
            let? s := json_dumps x in
            let? ss := elements rest in
            Ok (s :: ss)
        end in
      let? ss := elements l in
      Ok ("[" +:+ join "," ss +:+ "]")
  | PyDict items =>
      let fix members (items : pydict) : result (list string) :=
        match items with
        | [] => Ok []
        | (k, v) :: rest =>
            let? s := json_dumps v in
            let? ss := members rest in
            Ok ((encode_basestring_ascii lib k +:+ ":" +:+ s) :: ss)
        end in
      let? ss := members items in
      Ok ("{" +:+ join "," ss +:+ "}")
  | PyScheme _ | PyNetwork _ =>
      Raise (TypeError ("Object of type " +:+ type_name o +:+
                        " is not JSON serializable"))
  end.

(** [PaymentPayload.to_header]. *)
Definition to_header (self : PaymentPayload) : result string :=
  let data :=
    [ ("x402Version", PyInt (x402_version self));
      ("scheme", PyScheme (payload_scheme self));
      ("network", PyNetwork (payload_network self));
      ("payload", PyDict (payload self)) ] in
  let? json_str := json_dumps (PyDict data) in
  Ok (b64encode (list_byte_of_string json_str)).
End Json.

(** ** Validation of the data model (pydantic, lax mode)

    [model_validate] needs a dict; every field without a default must be
    present under its wire alias and of its type; keys that name no field
    are ignored. A [str] field takes a [str] only; an enumeration field
    takes a member or the value of a member, and nothing else; an [int]
    field takes an [int], or what the lax conversion accepts. All failing
    fields are reported, in declaration order. *)

Definition validate_str (o : pyobj) : option string :=
  match o with
  | PyStr s => Some s
  | _ => None
  end.

Definition validate_PaymentScheme (o : pyobj) : option PaymentScheme :=
  match o with
  | PyScheme s => Some s
  | PyStr s => if String.eqb s "exact" then Some EXACT else None
  | _ => None
  end.

Definition validate_PaymentNetwork (o : pyobj) : option PaymentNetwork :=
  match o with
  | PyNetwork n => Some n
  | PyStr s =>
      if String.eqb s "base-sepolia" then Some BASE_SEPOLIA
      else if String.eqb s "base-mainnet" then Some BASE_MAINNET
      else if String.eqb s "ethereum-sepolia" then Some ETHEREUM_SEPOLIA
      else if String.eqb s "ethereum-mainnet" then Some ETHEREUM_MAINNET
      else None
  | _ => None
  end.

(** A required field: [Field(..., alias=name)]. *)
Definition required {A} (items : pydict) (name : string)
    (validate : pyobj -> option A) : option A :=
  match dict_get name items with
  | Some o => validate o
  | None => None
  end.

(** A field [dict | None] with default [None]. *)
Definition optional_dict (items : pydict) (name : string)
    : option (option pydict) :=
  match dict_get name items with
  | None | Some PyNone => Some None
  | Some (PyDict d) => Some (Some d)
  | Some _ => None
  end.

(** A field [str | None] with default [None]. *)
Definition optional_str (items : pydict) (name : string)
    : option (option string) :=
  match dict_get name items with
  | None | Some PyNone => Some None
  | Some (PyStr s) => Some (Some s)
  | Some _ => None
  end.

(** The names of the fields whose validation gave nothing. *)
Fixpoint failing (checks : list (string * bool)) : list string :=
  match checks with
  | [] => []
  | (name, true) :: rest => failing rest
  | (name, false) :: rest => name :: failing rest
  end.

Definition passed {A} (o : option A) : bool :=
  match o with Some _ => true | None => false end.

Section Validation.
Variable lib : PyLib.

Definition validate_int (o : pyobj) : option Z :=
  match o with
  | PyInt n => Some n
  | _ => int_lax lib o
  end.

(** [PaymentRequirement.model_validate(o)]. *)
Definition PaymentRequirement_model_validate (o : pyobj)
    : result PaymentRequirement :=
  match o with
  | PyDict items =>
      let f1 := required items "scheme" validate_PaymentScheme in
      let f2 := required items "network" validate_PaymentNetwork in
      let f3 := required items "maxAmountRequired" validate_str in
      let f4 := required items "resource" validate_str in
      let f5 := required items "description" validate_str in
      let f6 := required items "mimeType" validate_str in
      let f7 := required items "payTo" validate_str in
      let f8 := required items "maxTimeoutSeconds" validate_int in
      let f9 := required items "asset" validate_str in
      let f10 := optional_dict items "outputSchema" in
      let f11 := optional_dict items "extra" in
      match f1, f2, f3, f4, f5, f6, f7, f8, f9, f10, f11 with
      | Some v1, Some v2, Some v3, Some v4, Some v5, Some v6, Some v7,
        Some v8, Some v9, Some v10, Some v11 =>
          Ok {| scheme := v1; network := v2; max_amount_required := v3;
                resource := v4; description := v5; mime_type := v6;
                pay_to := v7; max_timeout_seconds := v8; asset := v9;
                output_schema := v10; extra := v11 |}
      | _, _, _, _, _, _, _, _, _, _, _ =>
          Raise (ValidationError (failing
            [ ("scheme", passed f1); ("network", passed f2);
              ("maxAmountRequired", passed f3); ("resource", passed f4);
              ("description", passed f5); ("mimeType", passed f6);
              ("payTo", passed f7); ("maxTimeoutSeconds", passed f8);
              ("asset", passed f9); ("outputSchema", passed f10);
              ("extra", passed f11) ]))
      end
  | _ => Raise (ValidationError [])
  end.

(** [[PaymentRequirement.model_validate(req) for req in l]]: the first
    element that fails raises, the elements after it are not looked at. *)
Fixpoint validate_each (l : list pyobj) : result (list PaymentRequirement) :=
  match l with
  | [] => Ok []
  | req :: rest =>
      let? r := PaymentRequirement_model_validate req in
      let? rs := validate_each rest in
      Ok (r :: rs)
  end.

(** The field [accepts: list[PaymentRequirement]] of the response model. *)
Definition validate_accepts (o : pyobj) : option (list PaymentRequirement) :=
  match o with
  | PyList l =>
      match validate_each l with
      | Ok rs => Some rs
      | Raise _ => None
      end
  | _ => None
  end.

(** [PaymentRequiredResponse.model_validate(o)]. *)
Definition PaymentRequiredResponse_model_validate (o : pyobj)
    : result PaymentRequiredResponse :=
  match o with
  | PyDict items =>
      let f1 := required items "x402Version" validate_int in
      let f2 := required items "accepts" validate_accepts in
      let f3 := optional_str items "error" in
      match f1, f2, f3 with
      | Some v1, Some v2, Some v3 =>
          Ok {| response_x402_version := v1; accepts := v2; error := v3 |}
      | _, _, _ =>
          Raise (ValidationError (failing
            [ ("x402Version", passed f1); ("accepts", passed f2);
              ("error", passed f3) ]))
      end
  | _ => Raise (ValidationError [])
  end.
End Validation.

(** ** The world the client runs in *)

(** EIP-712 typed data, as [create_exact_payment] builds it. *)
Record Domain := {
  domain_name : string;
  domain_version : string;
  chainId : Z;
  verifyingContract : string
}.

Record Message := {
  msg_from : string;
  msg_to : string;
  msg_value : string;
  validAfter : Z;
  validBefore : Z;
  nonce : string
}.

(** What [sign_typed_data] returns: the attributes [r], [s], [v]. *)
Record Signature := {
  sig_r : Z;
  sig_s : Z;
  sig_v : Z
}.

(** The [types] argument: type name, then the (name, type) of each member. *)
Abbreviation TypeSchema := (list (string * list (string * string))).

(** A header dictionary is an object on the heap: the client and its caller
    hold references to it. *)
Abbreviation loc := nat.
Abbreviation headers_dict := (gmap string string).

(** The keyword arguments of a call: [headers], when passed, refers to a
    dict on the heap; the others are carried along as they are. *)
Record Kwargs := {
  kw_headers : option loc;
  kw_other : pydict
}.

(** What [session.request] is given: the headers as they are when it is
    called. *)
Record Request := {
  req_method : string;
  req_url : string;
  req_headers : option headers_dict;
  req_other : pydict
}.

(** A [requests.Response]: its [status_code], and what [json()] gives. *)
Record Response := {
  status_code : Z;
  json : result pyobj
}.

Inductive Event :=
| Http (request : Request)
| Sign (domain : Domain) (types : TypeSchema) (message : Message)
| Print (amount description : string).

(** The collaborators: the clock, the operating system's randomness, the
    HTTP session and the signing account. Each oracle is indexed by the
    number of calls made to it before. *)
Record Collaborators := {
  (** [time.time()], a finite float, kept as the rational it is *)
  time_time : nat -> Q;
  (** the bytes of the n-th draw from [secrets] *)
  urandom : nat -> nat -> byte;
  (** [session.request(method, url, **kwargs)] *)
  session_request : nat -> Request -> Response;
  (** [account.address] *)
  account_address : string;
  (** [account.sign_typed_data(domain_data, message_types, message_data)] *)
  sign_typed_data : Domain -> TypeSchema -> Message -> result Signature
}.

Record World := {
  clock_reads : nat;
  draws : nat;
  sent : nat;
  heap : gmap loc headers_dict;
  trace : list Event
}.

(** Computations: a state over [World], with exceptions. The state a
    computation reached when it raised is kept. *)
Definition M (A : Type) : Type := World -> result A * World.

Definition ret {A} (a : A) : M A := fun w => (Ok a, w).

Definition raise {A} (e : exn) : M A := fun w => (Raise e, w).

Definition bind {A B} (m : M A) (k : A -> M B) : M B :=
  fun w =>
    match m w with
    | (Ok a, w') => k a w'
    | (Raise e, w') => (Raise e, w')
    end.

Definition lift {A} (r : result A) : M A := fun w => (r, w).

(** [try: m  except ... as e: h e]; [h] gives nothing for an exception the
    clause does not name. *)
Definition try_except {A} (m : M A) (h : exn -> option (M A)) : M A :=
  fun w =>
    match m w with
    | (Ok a, w') => (Ok a, w')
    | (Raise e, w') =>
        match h e with
        | Some k => k w'
        | None => (Raise e, w')
        end
    end.

Notation "'let*' x ':=' m 'in' k" := (bind m (fun x => k))
  (at level 10, x name, m at level 100, k at level 200).

Definition log (e : Event) : M unit :=
  fun w =>
    (Ok tt, {| clock_reads := clock_reads w; draws := draws w;
               sent := sent w; heap := heap w;
               trace := trace w ++ [e] |}).

(** [int(x)] for a float: truncation towards zero. *)
Definition py_int_of_float (x : Q) : Z := Z.quot (Qnum x) (Zpos (Qden x)).

Section Signer.
Variable co : Collaborators.

(** [time.time()]. *)
Definition read_clock : M Q :=
  fun w =>
    (Ok (time_time co (clock_reads w)),
     {| clock_reads := S (clock_reads w); draws := draws w;
        sent := sent w; heap := heap w; trace := trace w |}).

(** [secrets.token_bytes(n)] and [secrets.token_hex(n)]. *)
Definition token_bytes (n : nat) : M (list byte) :=
  fun w =>
    (Ok (map (urandom co (draws w)) (seq 0 n)),
     {| clock_reads := clock_reads w; draws := S (draws w);
        sent := sent w; heap := heap w; trace := trace w |}).

Definition token_hex (n : nat) : M string :=
  let* bs := token_bytes n in
  ret (hexlify bs).

(** [self.account.sign_typed_data(...)]. *)
Definition account_sign_typed_data (domain : Domain) (types : TypeSchema)
    (message : Message) : M Signature :=
  let* _ := log (Sign domain types message) in
  lift (sign_typed_data co domain types message).
End Signer.

(** ** client/signer.py *)

Record Token := {
  human_name : string;
  address : string;
  name : string;
  decimals : Z;
  version : string
}.

Definition KNOWN_TOKENS : gmap string (list Token) :=
  list_to_map
    [ ("84532",
       [ {| human_name := "usdc";
            address := "0x036CbD53842c5426634e7929541eC2318f3dCF7e";
            name := "USDC"; decimals := 6; version := "2" |} ]);
      ("8453",
       [ {| human_name := "usdc";
            address := "0x833589fCD6eDb6E08f4c7C32D4f71b54bdA02913";
            name := "USD Coin"; decimals := 6; version := "2" |} ]);
      ("43113",
       [ {| human_name := "usdc";
            address := "0x5425890298aed601595a70AB815c96711a31Bc65";
            name := "USD Coin"; decimals := 6; version := "2" |} ]);
      ("43114",
       [ {| human_name := "usdc";
            address := "0xB97EF9Ef8734C71904D8002F8b6Bc66Dd9c48a6E";
            name := "USDC"; decimals := 6; version := "2" |} ]) ].

(** [_get_chain_id]: the table [chain_ids] has a row for each member, so
    the default of [chain_ids.get(network, 1)] is never taken. *)
Definition _get_chain_id (network : PaymentNetwork) : Z :=
  match network with
  | ETHEREUM_MAINNET => 1
  | ETHEREUM_SEPOLIA => 11155111
  | BASE_MAINNET => 8453
  | BASE_SEPOLIA => 8453
  end.

(** The loop of [_get_token_name] and [_get_token_version]: the first
    token whose address is equal, character for character. *)
Fixpoint first_token (tokens : list Token) (addr : string) : option Token :=
  match tokens with
  | [] => None
  | token :: rest =>
      if String.eqb (address token) addr then Some token
      else first_token rest addr
  end.

Definition token_not_found (chain_id addr : string) : exn :=
  ValueError ("Token not found for chain " +:+ chain_id +:+
              " and address " +:+ addr).

(** [KNOWN_TOKENS[chain_id]] raises [KeyError] when the key is missing. *)
Definition _get_token_name (chain_id addr : string) : result string :=
  match KNOWN_TOKENS !! chain_id with
  | None => Raise (KeyError chain_id)
  | Some tokens =>
      match first_token tokens addr with
      | Some token => Ok (name token)
      | None => Raise (token_not_found chain_id addr)
      end
  end.

Definition _get_token_version (chain_id addr : string) : result string :=
  match KNOWN_TOKENS !! chain_id with
  | None => Raise (KeyError chain_id)
  | Some tokens =>
      match first_token tokens addr with
      | Some token => Ok (version token)
      | None => Raise (token_not_found chain_id addr)
      end
  end.

Definition types : TypeSchema :=
  [ ("EIP712Domain",
     [ ("name", "string"); ("version", "string"); ("chainId", "uint256");
       ("verifyingContract", "address") ]);
    ("TransferWithAuthorization",
     [ ("from", "address"); ("to", "address"); ("value", "uint256");
       ("validAfter", "uint256"); ("validBefore", "uint256");
       ("nonce", "bytes32") ]) ].

Section SimpleX402Signer.
Variable co : Collaborators.

(** [SimpleX402Signer.create_exact_payment(requirement, amount=None)]. *)
Definition create_exact_payment (requirement : PaymentRequirement)
    (amount : option string) : M PaymentPayload :=
  let amount :=
    match amount with
    | None => max_amount_required requirement
    | Some a => a
    end in
  let* h := token_hex co 32 in
  let nonce := "0x" +:+ h in
  let* t1 := read_clock co in
  let valid_after := py_int_of_float t1 - max_timeout_seconds requirement in
  let* t2 := read_clock co in
  let valid_before := py_int_of_float t2 + max_timeout_seconds requirement in
  let chain_id := _get_chain_id (network requirement) in
  let* token_name :=
    lift (_get_token_name (py_str_int chain_id) (asset requirement)) in
  let* token_version :=
    lift (_get_token_version (py_str_int chain_id) (asset requirement)) in
  let domain :=
    {| domain_name := token_name; domain_version := token_version;
       chainId := chain_id; verifyingContract := asset requirement |} in
  let message :=
    {| msg_from := account_address co; msg_to := pay_to requirement;
       msg_value := amount; validAfter := valid_after;
       validBefore := valid_before; nonce := nonce |} in
  let* signature := account_sign_typed_data co domain types message in
  let payload :=
    [ ("from", PyStr (account_address co));
      ("to", PyStr (pay_to requirement));
      ("value", PyStr amount);
      ("validAfter", PyStr (py_str_int valid_after));
      ("validBefore", PyStr (py_str_int valid_before));
      ("nonce", PyStr nonce);
      ("signature",
       PyDict [ ("r", PyStr (py_hex (sig_r signature)));
                ("s", PyStr (py_hex (sig_s signature)));
                ("v", PyInt (sig_v signature)) ]) ] in
  ret {| x402_version := 1; payload_scheme := scheme requirement;
         payload_network := network requirement; payload := payload |}.
End SimpleX402Signer.

(** ** client/base.py *)

(** [o[key]] for a string key. *)
Definition getitem (o : pyobj) (key : string) : result pyobj :=
  match o with
  | PyDict items =>
      match dict_get key items with
      | Some v => Ok v
      | None => Raise (KeyError key)
      end
  | PyList _ =>
      Raise (TypeError "list indices must be integers or slices, not str")
  | PyStr _ => Raise (TypeError "string indices must be integers, not 'str'")
  | _ => Raise (TypeError ("'" +:+ type_name o +:+
                           "' object is not subscriptable"))
  end.

(** [for x in o]: the elements of a list, the keys of a dict, the
    characters of a string (here its bytes); other objects are not
    iterable. *)
Definition iter (o : pyobj) : result (list pyobj) :=
  match o with
  | PyList l => Ok l
  | PyDict items => Ok (map (fun kv => PyStr (fst kv)) items)
  | PyStr s =>
      Ok (map (fun c => PyStr (String c EmptyString)) (list_ascii_of_string s))
  | _ => Raise (TypeError ("'" +:+ type_name o +:+ "' object is not iterable"))
  end.

(** [{}]: a new dict on the heap. *)
Definition new_dict : M loc :=
  fun w =>
    let l := fresh (dom (heap w)) in
    (Ok l, {| clock_reads := clock_reads w; draws := draws w;
              sent := sent w; heap := <[l := ∅]> (heap w);
              trace := trace w |}).

(** [d[key] = value] on the dict at [l]: the object is changed in place. *)
Definition setitem (l : loc) (key value : string) : M unit :=
  fun w =>
    (Ok tt, {| clock_reads := clock_reads w; draws := draws w;
               sent := sent w; heap := alter (insert key value) l (heap w);
               trace := trace w |}).

Section X402Client.
Variable lib : PyLib.
Variable co : Collaborators.

(** [self.session.request(method, url, **kwargs)]. *)
Definition session_request_call (method url : string) (kwargs : Kwargs)
    : M Response :=
  fun w =>
    let request :=
      {| req_method := method; req_url := url;
         req_headers :=
           match kw_headers kwargs with
           | Some l => heap w !! l
           | None => None
           end;
         req_other := kw_other kwargs |} in
    (Ok (session_request co (sent w) request),
     {| clock_reads := clock_reads w; draws := draws w;
        sent := S (sent w); heap := heap w;
        trace := trace w ++ [Http request] |}).

(** The body of the [try] in [request]: it ends by raising. *)
Definition parse_requirements (response : Response) : result Response :=
  let? data := json response in
  let? accepted := getitem data "accepts" in
  let? reqs := iter accepted in
  let? requirements := validate_each lib reqs in
  Raise (X402PaymentRequiredError (Payment_required data) requirements).

(** [X402Client.request(method, url, **kwargs)]. *)
Definition request (method url : string) (kwargs : Kwargs) : M Response :=
  let* response := session_request_call method url kwargs in
  if (status_code response =? 402)%Z then
    match parse_requirements response with
    | Ok r => ret r
    | Raise e =>
        if is_ValueError_or_KeyError e
        then raise (X402PaymentRequiredError (Invalid_402_response e) [])
        else raise e
    end
  else ret response.

(** [X402Client.pay_and_request(method, url, requirement, amount=None,
    **kwargs)]. The right-hand side [payment.to_header()] is evaluated
    before the item of [headers] is assigned. *)
Definition pay_and_request (method url : string)
    (requirement : PaymentRequirement) (amount : option string)
    (kwargs : Kwargs) : M Response :=
  let* payment := create_exact_payment co requirement amount in
  let* headers :=
    match kw_headers kwargs with
    | Some l => ret l
    | None => new_dict
    end in
  let* header := lift (to_header lib payment) in
  let* _ := setitem headers "X-PAYMENT" header in
  let kwargs :=
    {| kw_headers := Some headers; kw_other := kw_other kwargs |} in
  let* response := session_request_call method url kwargs in
  ret response.

(** [X402Client.auto_pay_request(method, url, **kwargs)]. *)
Definition auto_pay_request (method url : string) (kwargs : Kwargs)
    : M Response :=
  try_except (request method url kwargs)
    (fun e =>
       match e with
       | X402PaymentRequiredError _ requirements =>
           Some
             match requirements with
             | [] => raise (ValueError "No payment options available")
             | requirement :: _ =>
                 let* _ := log (Print (max_amount_required requirement)
                                      (description requirement)) in
                 pay_and_request method url requirement None kwargs
             end
       | _ => None
       end).
End X402Client.

(** ** Observations on payloads, worlds and strings *)

(** The bytes of the [i]-th draw of [n] bytes. *)
Definition drawn (co : Collaborators) (n i : nat) : list byte :=
  map (urandom co i) (seq 0 n).

(** The two clock readings of a call started in [w], as [int(time.time())]
    gives them. *)
Definition first_now (co : Collaborators) (w : World) : Z :=
  py_int_of_float (time_time co (clock_reads w)).

Definition second_now (co : Collaborators) (w : World) : Z :=
  py_int_of_float (time_time co (S (clock_reads w))).

(** The amount a call pays: the override, or else the requirement's. *)
Definition amount_paid (req : PaymentRequirement) (amount : option string)
    : string :=
  match amount with
  | None => max_amount_required req
  | Some a => a
  end.

(** The message a call started in [w] asks the account to sign. *)
Definition exact_message (co : Collaborators) (req : PaymentRequirement)
    (amount : string) (w : World) : Message :=
  {| msg_from := account_address co; msg_to := pay_to req;
     msg_value := amount;
     validAfter := first_now co w - max_timeout_seconds req;
     validBefore := second_now co w + max_timeout_seconds req;
     nonce := "0x" +:+ hexlify (drawn co 32 (draws w)) |}.

(** The payload dict a call builds once the message is signed. *)
Definition payload_of (m : Message) (sg : Signature) : pydict :=
  [ ("from", PyStr (msg_from m)); ("to", PyStr (msg_to m));
    ("value", PyStr (msg_value m));
    ("validAfter", PyStr (py_str_int (validAfter m)));
    ("validBefore", PyStr (py_str_int (validBefore m)));
    ("nonce", PyStr (nonce m));
    ("signature",
     PyDict [ ("r", PyStr (py_hex (sig_r sg)));
              ("s", PyStr (py_hex (sig_s sg)));
              ("v", PyInt (sig_v sg)) ]) ].

(** The world of a call when it turns to the registry: the nonce is drawn
    and the clock was read twice. *)
Definition before_signing (w : World) : World :=
  {| clock_reads := S (S (clock_reads w)); draws := S (draws w);
     sent := sent w; heap := heap w; trace := trace w |}.

(** The domain a call builds from what the registry gave. *)
Definition exact_domain (req : PaymentRequirement)
    (token_name token_version : string) : Domain :=
  {| domain_name := token_name; domain_version := token_version;
     chainId := _get_chain_id (network req);
     verifyingContract := asset req |}.

(** The world a call that reached the signing account leaves behind. *)
Definition after_signing (w : World) (d : Domain) (m : Message) : World :=
  {| clock_reads := S (S (clock_reads w)); draws := S (draws w);
     sent := sent w; heap := heap w;
     trace := trace w ++ [Sign d types m] |}.

(** A string field of a payload dict. *)
Definition payload_str (key : string) (p : PaymentPayload) : option string :=
  match dict_get key (payload p) with
  | Some (PyStr s) => Some s
  | _ => None
  end.

Fixpoint string_forallb (f : ascii -> bool) (s : string) : bool :=
  match s with
  | EmptyString => true
  | String c rest => f c && string_forallb f rest
  end.

(** The [Sign] events of a trace: the calls made to the signing account. *)
Fixpoint signatures_requested (t : list Event) : list (Domain * Message) :=
  match t with
  | [] => []
  | Sign d _ m :: rest => (d, m) :: signatures_requested rest
  | _ :: rest => signatures_requested rest
  end.

(** The world after one HTTP request, and nothing else, happened in [w]. *)
Definition after_request (w : World) (request : Request) : World :=
  {| clock_reads := clock_reads w; draws := draws w; sent := S (sent w);
     heap := heap w; trace := trace w ++ [Http request] |}.

(** The world after the notice of an automatic payment was printed. *)
Definition after_print (w : World) (req : PaymentRequirement) : World :=
  {| clock_reads := clock_reads w; draws := draws w; sent := sent w;
     heap := heap w;
     trace := trace w ++ [Print (max_amount_required req) (description req)] |}.

(** The world after [{}] was evaluated in [w]. *)
Definition after_new_dict (w : World) : World :=
  {| clock_reads := clock_reads w; draws := draws w; sent := sent w;
     heap := <[fresh (dom (heap w)) := ∅]> (heap w); trace := trace w |}.

(** The request [session.request(method, url, **kwargs)] sends from [w]. *)
Definition request_sent (method url : string) (kwargs : Kwargs) (w : World)
    : Request :=
  {| req_method := method; req_url := url;
     req_headers :=
       match kw_headers kwargs with
       | Some l => heap w !! l
       | None => None
       end;
     req_other := kw_other kwargs |}.

(** ** Deterministic collaborators

    A fixed clock, fixed randomness, a canned signature and a scripted
    server, for running the client on concrete inputs. *)

Definition quote : string := String (ascii_of_nat 34) EmptyString.

(** A library whose string encoder only quotes and whose [int] validator
    is strict. *)
Definition plain_lib : PyLib :=
  {| encode_basestring_ascii := fun s => quote +:+ s +:+ quote;
     floatstr := fun _ => "0.0";
     int_lax := fun _ => None |}.

Definition USDC_BASE_SEPOLIA : string :=
  "0x036CbD53842c5426634e7929541eC2318f3dCF7e".

Definition USDC_BASE : string :=
  "0x833589fCD6eDb6E08f4c7C32D4f71b54bdA02913".

(** A requirement for /premium on the wire, and parsed. *)
Definition premium_json (net addr : string) (timeout : Z) : pyobj :=
  PyDict
    [ ("scheme", PyStr "exact"); ("network", PyStr net);
      ("maxAmountRequired", PyStr "10000"); ("resource", PyStr "/premium");
      ("description", PyStr "d"); ("mimeType", PyStr "application/json");
      ("payTo", PyStr "0xAbc..."); ("maxTimeoutSeconds", PyInt timeout);
      ("asset", PyStr addr) ].

Definition premium (net : PaymentNetwork) (addr : string) (timeout : Z)
    : PaymentRequirement :=
  {| scheme := EXACT; network := net; max_amount_required := "10000";
     resource := "/premium"; description := "d";
     mime_type := "application/json"; pay_to := "0xAbc...";
     max_timeout_seconds := timeout; asset := addr;
     output_schema := None; extra := None |}.

Definition body_402 (accepted : list pyobj) : pyobj :=
  PyDict [ ("x402Version", PyInt 1); ("accepts", PyList accepted) ].

(** A server that answers every request with 402 and the same body. *)
Definition always_402 (body : pyobj) (i : nat) (request : Request)
    : Response :=
  {| status_code := 402; json := Ok body |}.

(** A server that answers 402 once and 200 afterwards. *)
Definition paywall (body : pyobj) (i : nat) (request : Request) : Response :=
  match i with
  | O => {| status_code := 402; json := Ok body |}
  | S _ => {| status_code := 200; json := Ok (PyDict []) |}
  end.

Definition counting_bytes (i j : nat) : byte :=
  match Byte.of_N (N.of_nat (i + j)) with
  | Some b => b
  | None => x00
  end.

Definition fake_account (clock : nat -> Q)
    (server : nat -> Request -> Response) : Collaborators :=
  {| time_time := clock;
     urandom := counting_bytes;
     session_request := server;
     account_address := "0xPayer";
     sign_typed_data :=
       fun _ _ _ => Ok {| sig_r := 1; sig_s := 2; sig_v := 27 |} |}.

(** A clock that stands still. *)
Definition frozen (now : Z) (i : nat) : Q := inject_Z now.

(** A clock that stands still half a second past a full second. *)
Definition half_past (i : nat) : Q := 17000000005 # 10.

(** A clock read 0.2 ms before and 0.2 ms after a second begins. *)
Definition crossing (i : nat) : Q :=
  match i with
  | O => 17000000009998 # 10000
  | S _ => 17000000010002 # 10000
  end.

(** A world in which nothing has happened; the caller holds one header
    dict, at location 0. *)
Definition fresh_world : World :=
  {| clock_reads := 0; draws := 0; sent := 0;
     heap := {[ 0%nat := {[ "Accept" := "application/json" ]} ]};
     trace := [] |}.

Definition no_kwargs : Kwargs := {| kw_headers := None; kw_other := [] |}.

Definition with_headers : Kwargs :=
  {| kw_headers := Some 0%nat; kw_other := [] |}.

(** ** client/signer.py: the constructor *)

Section Constructor.
Variable Account : Type.

(** [Account.from_key], which may refuse a key. *)
Variable from_key : string -> result Account.

(** [SimpleX402Signer.__init__(private_key)]: the account the signer
    holds. *)
Definition SimpleX402Signer_init (private_key : string) : result Account :=
  let private_key :=
    if String.prefix "0x" private_key then private_key
    else "0x" +:+ private_key in
  from_key private_key.
End Constructor.

(** ** Requirements on the wire *)

(** The wire names of the fields of a requirement, in declaration order:
    the nine without a default, then the two with one. *)
Definition required_names : list string :=
  [ "scheme"; "network"; "maxAmountRequired"; "resource"; "description";
    "mimeType"; "payTo"; "maxTimeoutSeconds"; "asset" ].

Definition wire_names : list string :=
  (required_names ++ [ "outputSchema"; "extra" ])%list.

Definition wire_optional (o : option pydict) : pyobj :=
  match o with
  | None => PyNone
  | Some d => PyDict d
  end.

(** A requirement as a server writes it: each field under its alias, the
    enumerations by their values. *)
Definition wire_of (r : PaymentRequirement) : pyobj :=
  PyDict
    [ ("scheme", PyStr (PaymentScheme_value (scheme r)));
      ("network", PyStr (PaymentNetwork_value (network r)));
      ("maxAmountRequired", PyStr (max_amount_required r));
      ("resource", PyStr (resource r));
      ("description", PyStr (description r));
      ("mimeType", PyStr (mime_type r));
      ("payTo", PyStr (pay_to r));
      ("maxTimeoutSeconds", PyInt (max_timeout_seconds r));
      ("asset", PyStr (asset r));
      ("outputSchema", wire_optional (output_schema r));
      ("extra", wire_optional (extra r)) ].

(** Objects that cannot be subscripted by a string key, and objects that
    cannot be iterated. *)
Definition is_dict (o : pyobj) : bool :=
  match o with
  | PyDict _ => true
  | _ => false
  end.

Definition is_iterable (o : pyobj) : bool :=
  match o with
  | PyList _ | PyDict _ | PyStr _ => true
  | _ => false
  end.

(** The domain under which the one asset the signer can pay with is
    signed. *)
Definition usdc_base_domain : Domain :=
  {| domain_name := "USD Coin"; domain_version := "2"; chainId := 8453;
     verifyingContract := USDC_BASE |}.

(** An account that refuses to sign. *)
Definition refusing_account (clock : nat -> Q)
    (server : nat -> Request -> Response) : Collaborators :=
  {| time_time := clock;
     urandom := counting_bytes;
     session_request := server;
     account_address := "0xPayer";
     sign_typed_data := fun _ _ _ => Raise (ValueError "refused") |}.

(** A server that answers every request with the same response. *)
Definition always (response : Response) (i : nat) (request : Request)
    : Response := response.

(** Running a computation on a concrete world: [evaluated] closes a goal
    by evaluation, [outcome_of c k] evaluates [c] and hands the value and
    the world it returns to [k]. *)
Ltac evaluated := vm_compute; reflexivity.

Ltac outcome_of c k :=
  let r := eval vm_compute in c in
  lazymatch r with
  | (Ok ?a, ?w) => k a w
  end.

(** * Properties *)

(** ** The text encodings *)

Example b64encode_padding :
  b64encode (list_byte_of_string "Man") = "TWFu" /\
  b64encode (list_byte_of_string "Ma") = "TWE=" /\
  b64encode (list_byte_of_string "M") = "TQ==".
Proof. repeat split; reflexivity. Qed.

Example py_hex_examples :
  py_hex 255 = "0xff" /\ py_hex 0 = "0x0" /\ py_hex (-255) = "-0xff".
Proof. repeat split; reflexivity. Qed.

Lemma hex_digits_of_byte (b : byte) :
  match hex_value (hex_digit (Byte.to_N b / 16)),
        hex_value (hex_digit (Byte.to_N b mod 16)) with
  | Some h, Some l => Byte.of_N (16 * h + l)
  | _, _ => None
  end = Some b.
Proof. destruct b; vm_compute; reflexivity. Qed.

Lemma hex_of_byte_app (b : byte) (rest : string) :
  hex_of_byte b +:+ rest =
  String (hex_digit (Byte.to_N b / 16))
    (String (hex_digit (Byte.to_N b mod 16)) rest).
Proof. reflexivity. Qed.

Lemma unhexlify_hex_of_byte (b : byte) (rest : string) :
  unhexlify (hex_of_byte b +:+ rest) =
  match unhexlify rest with
  | Some bs => Some (b :: bs)
  | None => None
  end.
Proof.
  rewrite hex_of_byte_app. cbn [unhexlify].
  pose proof (hex_digits_of_byte b) as H.
  destruct (hex_value (hex_digit (Byte.to_N b / 16))) as [h|]; [|discriminate].
  destruct (hex_value (hex_digit (Byte.to_N b mod 16))) as [l|]; [|discriminate].
  destruct (unhexlify rest); [|reflexivity].
  rewrite H. reflexivity.
Qed.

(** Decoding the hexadecimal form of bytes gives the bytes back. *)
Lemma unhexlify_hexlify (bs : list byte) : unhexlify (hexlify bs) = Some bs.
Proof.
  induction bs as [|b bs IH]; [reflexivity|].
  cbn [hexlify]. rewrite unhexlify_hex_of_byte, IH. reflexivity.
Qed.

Lemma hexlify_inj (bs1 bs2 : list byte) :
  hexlify bs1 = hexlify bs2 -> bs1 = bs2.
Proof.
  intros H. apply (f_equal unhexlify) in H.
  rewrite !unhexlify_hexlify in H. congruence.
Qed.

Lemma hex_digit_is_hex (b : byte) :
  is_hex_digit (hex_digit (Byte.to_N b / 16)) = true /\
  is_hex_digit (hex_digit (Byte.to_N b mod 16)) = true.
Proof. destruct b; vm_compute; split; reflexivity. Qed.

Lemma hexlify_digits (bs : list byte) :
  string_forallb is_hex_digit (hexlify bs) = true.
Proof.
  induction bs as [|b bs IH]; [reflexivity|].
  cbn [hexlify]. rewrite hex_of_byte_app. cbn [string_forallb].
  destruct (hex_digit_is_hex b) as [-> ->]. exact IH.
Qed.

Lemma hexlify_length (bs : list byte) :
  String.length (hexlify bs) = (2 * length bs)%nat.
Proof.
  induction bs as [|b bs IH]; [reflexivity|].
  cbn [hexlify length]. rewrite hex_of_byte_app. cbn [String.length].
  rewrite IH. lia.
Qed.

Lemma drawn_length (co : Collaborators) (n i : nat) :
  length (drawn co n i) = n.
Proof. unfold drawn. rewrite length_map, length_seq. reflexivity. Qed.

Lemma string_app_inv_head (a b c : string) : a +:+ b = a +:+ c -> b = c.
Proof.
  induction a as [|x a IH]; cbn; [tauto|].
  intros [= H]. auto.
Qed.

(** ** The token registry *)

Lemma chain_id_of_base (n : PaymentNetwork) :
  n = BASE_SEPOLIA \/ n = BASE_MAINNET ->
  py_str_int (_get_chain_id n) = "8453".
Proof. intros [-> | ->]; reflexivity. Qed.

Lemma known_tokens_base :
  KNOWN_TOKENS !! "8453" =
  Some [ {| human_name := "usdc"; address := USDC_BASE; name := "USD Coin";
            decimals := 6; version := "2" |} ].
Proof. vm_compute. reflexivity. Qed.

Lemma known_tokens_ethereum (n : PaymentNetwork) :
  n = ETHEREUM_MAINNET \/ n = ETHEREUM_SEPOLIA ->
  KNOWN_TOKENS !! py_str_int (_get_chain_id n) = None.
Proof. intros [-> | ->]; vm_compute; reflexivity. Qed.

(** On either Base network the registry is read at chain 8453, where one
    address is listed. *)
Lemma _get_token_name_base (n : PaymentNetwork) (addr : string) :
  n = BASE_SEPOLIA \/ n = BASE_MAINNET ->
  _get_token_name (py_str_int (_get_chain_id n)) addr =
  if String.eqb USDC_BASE addr then Ok "USD Coin"
  else Raise (token_not_found "8453" addr).
Proof.
  intros H. rewrite (chain_id_of_base n H).
  unfold _get_token_name. rewrite known_tokens_base.
  cbn [first_token address name].
  destruct (String.eqb USDC_BASE addr); reflexivity.
Qed.

Lemma _get_token_version_base (n : PaymentNetwork) (addr : string) :
  n = BASE_SEPOLIA \/ n = BASE_MAINNET ->
  _get_token_version (py_str_int (_get_chain_id n)) addr =
  if String.eqb USDC_BASE addr then Ok "2"
  else Raise (token_not_found "8453" addr).
Proof.
  intros H. rewrite (chain_id_of_base n H).
  unfold _get_token_version. rewrite known_tokens_base.
  cbn [first_token address version].
  destruct (String.eqb USDC_BASE addr); reflexivity.
Qed.

(** ** create_exact_payment *)

(** The string fields of a payload, read back from the dict. *)
Lemma payload_of_fields (v : Z) (sn : PaymentScheme) (nw : PaymentNetwork)
    (m : Message) (sg : Signature) :
  let p := {| x402_version := v; payload_scheme := sn;
              payload_network := nw; payload := payload_of m sg |} in
  payload_str "from" p = Some (msg_from m) /\
  payload_str "to" p = Some (msg_to m) /\
  payload_str "value" p = Some (msg_value m) /\
  payload_str "validAfter" p = Some (py_str_int (validAfter m)) /\
  payload_str "validBefore" p = Some (py_str_int (validBefore m)) /\
  payload_str "nonce" p = Some (nonce m).
Proof. repeat split. Qed.

(** The call, step by step: the nonce is drawn and the clock read twice,
    then the registry is asked for the name and for the version, then the
    account signs. *)
Lemma create_exact_payment_eq co req amount w :
  create_exact_payment co req amount w =
  let chain := py_str_int (_get_chain_id (network req)) in
  match _get_token_name chain (asset req) with
  | Raise e => (Raise e, before_signing w)
  | Ok token_name =>
      match _get_token_version chain (asset req) with
      | Raise e => (Raise e, before_signing w)
      | Ok token_version =>
          let d := exact_domain req token_name token_version in
          let m := exact_message co req (amount_paid req amount) w in
          (match sign_typed_data co d types m with
           | Ok sg =>
               Ok {| x402_version := 1; payload_scheme := scheme req;
                     payload_network := network req;
                     payload := payload_of m sg |}
           | Raise e => Raise e
           end, after_signing w d m)
      end
  end.
Proof.
  unfold create_exact_payment, bind, token_hex, token_bytes, read_clock,
    account_sign_typed_data, lift, log, ret, bind.
  cbn [clock_reads draws sent heap trace].
  destruct (_get_token_name _ _) as [tn|e]; [|reflexivity].
  destruct (_get_token_version _ _) as [tv|e]; [|reflexivity].
  cbv zeta.
  unfold exact_domain, exact_message, amount_paid, first_now, second_now,
    drawn.
  match goal with |- context [sign_typed_data co ?d ?t ?m] =>
    destruct (sign_typed_data co d t m) as [sg|e]
  end; reflexivity.
Qed.

(** A call that returns has asked for one signature; its payload is built
    from the signed message. *)
Lemma create_exact_payment_Ok co req amount w p w' :
  create_exact_payment co req amount w = (Ok p, w') ->
  exists d sg,
    let m := exact_message co req (amount_paid req amount) w in
    sign_typed_data co d types m = Ok sg /\
    w' = after_signing w d m /\
    p = {| x402_version := 1; payload_scheme := scheme req;
           payload_network := network req; payload := payload_of m sg |}.
Proof.
  rewrite create_exact_payment_eq. cbv zeta.
  destruct (_get_token_name _ _) as [tn|e]; [|discriminate].
  destruct (_get_token_version _ _) as [tv|e]; [|discriminate].
  destruct (sign_typed_data co _ _ _) as [sg|e] eqn:Hs; [|discriminate].
  intros [= <- <-]. eauto.
Qed.

(** Whatever its outcome, a call sends nothing and leaves the heap alone. *)
Lemma create_exact_payment_frame co req amount w :
  let w' := snd (create_exact_payment co req amount w) in
  sent w' = sent w /\ heap w' = heap w.
Proof.
  rewrite create_exact_payment_eq. cbv zeta.
  destruct (_get_token_name _ _) as [tn|e]; [|split; reflexivity].
  destruct (_get_token_version _ _) as [tv|e]; split; reflexivity.
Qed.

(** C8: with no amount override the payload's value, and the value of the
    signed message, is the requirement's [max_amount_required]; with an
    override it is the override. *)
Theorem create_exact_payment_value co req amount w p w' :
  create_exact_payment co req amount w = (Ok p, w') ->
  exists d m,
    trace w' = (trace w ++ [Sign d types m])%list /\
    (amount = None ->
     payload_str "value" p = Some (max_amount_required req) /\
     msg_value m = max_amount_required req) /\
    (forall a, amount = Some a ->
     payload_str "value" p = Some a /\ msg_value m = a).
Proof.
  intros H.
  destruct (create_exact_payment_Ok _ _ _ _ _ _ H)
    as (d & sg & _ & -> & ->).
  exists d, (exact_message co req (amount_paid req amount) w).
  split; [reflexivity|].
  split.
  - intros ->. split; reflexivity.
  - intros a ->. split; reflexivity.
Qed.

Lemma create_exact_payment_value_witness :
  let co := fake_account (frozen 1700000000) (paywall (body_402 [])) in
  let req := premium BASE_MAINNET USDC_BASE 300 in
  (exists p w',
     create_exact_payment co req None fresh_world = (Ok p, w') /\
     payload_str "value" p = Some "10000") /\
  (exists p w',
     create_exact_payment co req (Some "42") fresh_world = (Ok p, w') /\
     payload_str "value" p = Some "42").
Proof.
  intros co req. split.
  - outcome_of (create_exact_payment co req None fresh_world)
      ltac:(fun p w' =>
        exists p, w'; split; [evaluated|];
        destruct (create_exact_payment_value co req None fresh_world p w'
                    ltac:(evaluated)) as (d & m & _ & Hnone & _);
        exact (proj1 (Hnone eq_refl))).
  - outcome_of (create_exact_payment co req (Some "42") fresh_world)
      ltac:(fun p w' =>
        exists p, w'; split; [evaluated|];
        destruct (create_exact_payment_value co req (Some "42") fresh_world
                    p w' ltac:(evaluated)) as (d & m & _ & _ & Hsome);
        exact (proj1 (Hsome "42" eq_refl))).
Defined.

(** C9: the nonce of a payload is [0x] followed by the 64 hexadecimal
    digits of the 32 bytes drawn; a second call, made in the world the
    first one left, draws again, and when the two draws differ so do the
    two nonces. *)
Theorem create_exact_payment_nonce co req amount w p w' :
  create_exact_payment co req amount w = (Ok p, w') ->
  (exists h,
     payload_str "nonce" p = Some ("0x" +:+ h) /\
     h = hexlify (drawn co 32 (draws w)) /\
     String.length h = 64%nat /\
     string_forallb is_hex_digit h = true) /\
  draws w' = S (draws w) /\
  (forall amount2 p2 w2,
     create_exact_payment co req amount2 w' = (Ok p2, w2) ->
     drawn co 32 (draws w) <> drawn co 32 (draws w') ->
     payload_str "nonce" p <> payload_str "nonce" p2).
Proof.
  intros H.
  destruct (create_exact_payment_Ok _ _ _ _ _ _ H)
    as (d & sg & _ & -> & ->).
  split; [|split].
  - exists (hexlify (drawn co 32 (draws w))).
    split; [reflexivity|]. split; [reflexivity|]. split.
    + rewrite hexlify_length, drawn_length. reflexivity.
    + apply hexlify_digits.
  - reflexivity.
  - intros amount2 p2 w2 H2 Hdiff.
    destruct (create_exact_payment_Ok _ _ _ _ _ _ H2)
      as (d2 & sg2 & _ & _ & ->).
    destruct (payload_of_fields 1 (scheme req) (network req)
                (exact_message co req (amount_paid req amount) w) sg)
      as (_ & _ & _ & _ & _ & ->).
    destruct (payload_of_fields 1 (scheme req) (network req)
                (exact_message co req (amount_paid req amount2)
                   (after_signing w d
                      (exact_message co req (amount_paid req amount) w))) sg2)
      as (_ & _ & _ & _ & _ & ->).
    cbn [exact_message nonce].
    intros E. apply Hdiff, hexlify_inj, (string_app_inv_head "0x").
    congruence.
Qed.

Lemma create_exact_payment_nonce_witness :
  let co := fake_account (frozen 1700000000) (paywall (body_402 [])) in
  let req := premium BASE_MAINNET USDC_BASE 300 in
  exists p1 w1 p2 w2,
    create_exact_payment co req None fresh_world = (Ok p1, w1) /\
    create_exact_payment co req None w1 = (Ok p2, w2) /\
    payload_str "nonce" p1 =
      Some "0x000102030405060708090a0b0c0d0e0f101112131415161718191a1b1c1d1e1f" /\
    payload_str "nonce" p1 <> payload_str "nonce" p2.
Proof.
  intros co req.
  outcome_of (create_exact_payment co req None fresh_world)
    ltac:(fun p1 w1 =>
      outcome_of (create_exact_payment co req None w1)
        ltac:(fun p2 w2 =>
          exists p1, w1, p2, w2;
          split; [evaluated|]; split; [evaluated|]; split; [evaluated|];
          destruct (create_exact_payment_nonce co req None fresh_world p1 w1
                      ltac:(evaluated)) as (_ & _ & Hnext);
          apply (Hnext None p2 w2 ltac:(evaluated));
          intros E; vm_compute in E; discriminate E)).
Defined.

(** [int] of a float is less than one second away from the float. *)
Lemma py_int_of_float_near (q : Q) :
  (inject_Z (py_int_of_float q - 1) < q)%Q /\
  (q < inject_Z (py_int_of_float q + 1))%Q.
Proof.
  destruct q as [a b]. unfold Qlt, py_int_of_float. cbn.
  pose proof (Z.quot_rem' a (Z.pos b)) as Hq.
  pose proof (Z.rem_bound_abs a (Z.pos b) ltac:(lia)) as Hr.
  split; nia.
Qed.

(** C3, as the code has it: the clock is read once for each bound, so
    [validAfter] is [int] of the first reading less the timeout and
    [validBefore] is [int] of the second reading plus the timeout, both
    integers, written in decimal in the payload and held as integers in the
    signed message. The window is [2 * t] wide when the two readings fall
    in the same second. When [t] is not negative the whole seconds of the
    two readings lie between the bounds; when [t] is at least 1 the
    readings themselves do. *)
Theorem create_exact_payment_window co req amount w p w' :
  create_exact_payment co req amount w = (Ok p, w') ->
  let t := max_timeout_seconds req in
  let reading1 := time_time co (clock_reads w) in
  let reading2 := time_time co (S (clock_reads w)) in
  exists (va vb : Z) d m,
    payload_str "validAfter" p = Some (py_str_int va) /\
    payload_str "validBefore" p = Some (py_str_int vb) /\
    trace w' = (trace w ++ [Sign d types m])%list /\
    validAfter m = va /\ validBefore m = vb /\
    va = py_int_of_float reading1 - t /\
    vb = py_int_of_float reading2 + t /\
    (py_int_of_float reading1 = py_int_of_float reading2 ->
     vb - va = 2 * t) /\
    (0 <= t ->
     va <= py_int_of_float reading1 /\ py_int_of_float reading2 <= vb) /\
    (1 <= t ->
     (inject_Z va < reading1)%Q /\ (reading2 < inject_Z vb)%Q).
Proof.
  intros H t reading1 reading2.
  destruct (create_exact_payment_Ok _ _ _ _ _ _ H)
    as (d & sg & _ & -> & ->).
  exists (py_int_of_float reading1 - t), (py_int_of_float reading2 + t), d,
    (exact_message co req (amount_paid req amount) w).
  repeat (split; [reflexivity|]).
  split; [intros; lia|]. split; [intros; lia|].
  intros Ht.
  destruct (py_int_of_float_near reading1) as [Hlow _].
  destruct (py_int_of_float_near reading2) as [_ Hhigh].
  revert Hlow Hhigh. unfold Qlt. cbn [inject_Z Qnum Qden].
  intros Hlow Hhigh. split; nia.
Qed.

Lemma create_exact_payment_window_witness :
  let co := fake_account half_past (paywall (body_402 [])) in
  let req := premium BASE_MAINNET USDC_BASE 300 in
  exists p w',
    create_exact_payment co req None fresh_world = (Ok p, w') /\
    payload_str "validAfter" p = Some "1699999700" /\
    payload_str "validBefore" p = Some "1700000300" /\
    exists va vb : Z,
      payload_str "validAfter" p = Some (py_str_int va) /\
      payload_str "validBefore" p = Some (py_str_int vb) /\
      vb - va = 2 * 300 /\
      va <= 1700000000 <= vb /\
      (inject_Z va < 17000000005 # 10)%Q /\
      (17000000005 # 10 < inject_Z vb)%Q.
Proof.
  intros co req.
  outcome_of (create_exact_payment co req None fresh_world)
    ltac:(fun p w' =>
      exists p, w'; split; [evaluated|];
      split; [evaluated|]; split; [evaluated|];
      destruct (create_exact_payment_window co req None fresh_world p w'
                  ltac:(evaluated))
        as (va & vb & d & m & Ha & Hb & _ & _ & _ & _ & _ & Hw & Hin & Hraw);
      exists va, vb; split; [exact Ha|]; split; [exact Hb|];
      split; [exact (Hw eq_refl)|];
      destruct (Hin ltac:(vm_compute; discriminate)) as [H1 H2];
      destruct (Hraw ltac:(vm_compute; discriminate)) as [H3 H4];
      split; [split; [exact H1 | exact H2]|];
      split; [exact H3 | exact H4]).
Defined.

(** With a timeout of 0 both bounds are the whole second of the reading,
    and a reading with a fractional part lies after [validBefore]: the
    readings themselves are bracketed from [t = 1] on only. *)
Lemma create_exact_payment_window_zero_timeout :
  exists p w',
    create_exact_payment (fake_account half_past (paywall (body_402 [])))
      (premium BASE_MAINNET USDC_BASE 0) None fresh_world = (Ok p, w') /\
    payload_str "validAfter" p = Some (py_str_int 1700000000) /\
    payload_str "validBefore" p = Some (py_str_int 1700000000) /\
    (inject_Z 1700000000 < half_past 0)%Q.
Proof.
  outcome_of
    (create_exact_payment (fake_account half_past (paywall (body_402 [])))
       (premium BASE_MAINNET USDC_BASE 0) None fresh_world)
    ltac:(fun p w' =>
      exists p, w'; repeat (split; [evaluated|]); reflexivity).
Qed.

(** C3, as stated, fails: when a second begins between the two readings of
    the clock the window is one second wider than [2 * t]; and with a
    negative timeout, which the field's type [int] allows, the bounds are in
    the wrong order and bracket nothing. *)
Lemma create_exact_payment_window_counterexample :
  (exists p w',
     create_exact_payment (fake_account crossing (paywall (body_402 [])))
       (premium BASE_MAINNET USDC_BASE 300) None fresh_world = (Ok p, w') /\
     payload_str "validAfter" p = Some (py_str_int 1699999700) /\
     payload_str "validBefore" p = Some (py_str_int 1700000301) /\
     1700000301 - 1699999700 <> 2 * 300) /\
  (exists p w',
     create_exact_payment
       (fake_account (frozen 1700000000) (paywall (body_402 [])))
       (premium BASE_MAINNET USDC_BASE (-5)) None fresh_world = (Ok p, w') /\
     payload_str "validAfter" p = Some (py_str_int 1700000005) /\
     payload_str "validBefore" p = Some (py_str_int 1699999995) /\
     ~ (1700000005 <= 1700000000 <= 1699999995)).
Proof.
  split.
  - outcome_of
      (create_exact_payment (fake_account crossing (paywall (body_402 [])))
         (premium BASE_MAINNET USDC_BASE 300) None fresh_world)
      ltac:(fun p w' =>
        exists p, w'; repeat (split; [evaluated|]); lia).
  - outcome_of
      (create_exact_payment
         (fake_account (frozen 1700000000) (paywall (body_402 [])))
         (premium BASE_MAINNET USDC_BASE (-5)) None fresh_world)
      ltac:(fun p w' =>
        exists p, w'; repeat (split; [evaluated|]); lia).
Qed.

(** Where the asset is not the one listed for chain 8453, a call on a Base
    network raises the token-not-found [ValueError]. *)
Lemma create_exact_payment_unlisted_asset co req amount w :
  network req = BASE_SEPOLIA \/ network req = BASE_MAINNET ->
  asset req <> USDC_BASE ->
  fst (create_exact_payment co req amount w) =
  Raise (token_not_found "8453" (asset req)).
Proof.
  intros Hn Ha. rewrite create_exact_payment_eq. cbv zeta.
  rewrite (_get_token_name_base _ _ Hn).
  destruct (String.eqb_spec USDC_BASE (asset req)) as [E|_]; [|reflexivity].
  congruence.
Qed.

(** C4, at the inputs where the code departs from it: on an Ethereum
    network the chain id has no row in the registry, and the call raises
    the [KeyError] of the failed subscript, not the token-not-found
    error. *)
Theorem create_exact_payment_unknown_chain co req amount w :
  network req = ETHEREUM_MAINNET \/ network req = ETHEREUM_SEPOLIA ->
  fst (create_exact_payment co req amount w) =
  Raise (KeyError (py_str_int (_get_chain_id (network req)))).
Proof.
  intros Hn. rewrite create_exact_payment_eq. cbv zeta.
  unfold _get_token_name. rewrite (known_tokens_ethereum _ Hn). reflexivity.
Qed.

Lemma create_exact_payment_unknown_chain_witness :
  fst (create_exact_payment
         (fake_account (frozen 1700000000) (paywall (body_402 [])))
         (premium ETHEREUM_MAINNET USDC_BASE 300) None fresh_world) =
  Raise (KeyError "1").
Proof.
  apply (create_exact_payment_unknown_chain
           (fake_account (frozen 1700000000) (paywall (body_402 [])))
           (premium ETHEREUM_MAINNET USDC_BASE 300) None fresh_world).
  left. reflexivity.
Defined.

(** The dict the signer builds holds strings and an integer only: it is
    the two enumeration members next to it that [json.dumps] refuses. *)
Lemma payload_of_serializable (lib : PyLib) (m : Message) (sg : Signature) :
  exists s, json_dumps lib (PyDict (payload_of m sg)) = Ok s.
Proof. eexists. reflexivity. Qed.

Example json_dumps_compact :
  json_dumps plain_lib
    (PyDict [("a", PyInt 1); ("b", PyList [PyNone; PyBool true; PyInt (-2)])]) =
  Ok ("{" +:+ quote +:+ "a" +:+ quote +:+ ":1," +:+
      quote +:+ "b" +:+ quote +:+ ":[null,true,-2]}").
Proof. reflexivity. Qed.

(** C2, on the code: [to_header] hands the enumeration members themselves
    to [json.dumps], which cannot encode them; for every payload the call
    raises [TypeError] and no header is produced. *)
Theorem to_header_not_serializable (lib : PyLib) (p : PaymentPayload) :
  to_header lib p =
  Raise (TypeError "Object of type PaymentScheme is not JSON serializable").
Proof. reflexivity. Qed.

(** ** Validation *)

(** A requirement that validates was read from a dict, field by field. *)
Lemma model_validate_raises lib o e :
  PaymentRequirement_model_validate lib o = Raise e ->
  exists fields, e = ValidationError fields.
Proof.
  unfold PaymentRequirement_model_validate.
  destruct o;
    lazymatch goal with
    | |- Raise _ = Raise _ -> _ => intros [= <-]; eauto
    | _ => cbv zeta
    end.
  destruct (required items "scheme" _); [|intros [= <-]; eauto].
  destruct (required items "network" _); [|intros [= <-]; eauto].
  destruct (required items "maxAmountRequired" _); [|intros [= <-]; eauto].
  destruct (required items "resource" _); [|intros [= <-]; eauto].
  destruct (required items "description" _); [|intros [= <-]; eauto].
  destruct (required items "mimeType" _); [|intros [= <-]; eauto].
  destruct (required items "payTo" _); [|intros [= <-]; eauto].
  destruct (required items "maxTimeoutSeconds" _); [|intros [= <-]; eauto].
  destruct (required items "asset" _); [|intros [= <-]; eauto].
  destruct (optional_dict items "outputSchema"); [|intros [= <-]; eauto].
  destruct (optional_dict items "extra"); [|intros [= <-]; eauto].
  discriminate.
Qed.

(** A scheme outside the closed set is rejected, not coerced. *)
Lemma model_validate_unknown_scheme lib items v :
  dict_get "scheme" items = Some v ->
  (forall s, v <> PyStr (PaymentScheme_value s)) ->
  (forall s, v <> PyScheme s) ->
  exists fields,
    PaymentRequirement_model_validate lib (PyDict items) =
    Raise (ValidationError ("scheme" :: fields)).
Proof.
  intros Hget Hstr Hmem.
  assert (required items "scheme" validate_PaymentScheme = None) as Hnone.
  { unfold required. rewrite Hget. destruct v; try reflexivity.
    - cbn. destruct (String.eqb_spec s "exact") as [->|_]; [|reflexivity].
      destruct (Hstr EXACT). reflexivity.
    - destruct (Hmem s). reflexivity. }
  unfold PaymentRequirement_model_validate. cbv zeta.
  rewrite Hnone. cbn [passed failing]. eauto.
Qed.

(** So is a network outside the closed set. *)
Lemma model_validate_unknown_network lib items v :
  dict_get "network" items = Some v ->
  (forall n, v <> PyStr (PaymentNetwork_value n)) ->
  (forall n, v <> PyNetwork n) ->
  exists fields,
    PaymentRequirement_model_validate lib (PyDict items) =
    Raise (ValidationError fields) /\ In "network" fields.
Proof.
  intros Hget Hstr Hmem.
  assert (required items "network" validate_PaymentNetwork = None) as Hnone.
  { unfold required. rewrite Hget. destruct v; try reflexivity.
    - cbn.
      destruct (String.eqb_spec s "base-sepolia") as [->|_];
        [destruct (Hstr BASE_SEPOLIA); reflexivity|].
      destruct (String.eqb_spec s "base-mainnet") as [->|_];
        [destruct (Hstr BASE_MAINNET); reflexivity|].
      destruct (String.eqb_spec s "ethereum-sepolia") as [->|_];
        [destruct (Hstr ETHEREUM_SEPOLIA); reflexivity|].
      destruct (String.eqb_spec s "ethereum-mainnet") as [->|_];
        [destruct (Hstr ETHEREUM_MAINNET); reflexivity|].
      reflexivity.
    - destruct (Hmem n). reflexivity. }
  unfold PaymentRequirement_model_validate. cbv zeta.
  rewrite Hnone.
  destruct (required items "scheme" _); cbn [passed failing];
    eexists; (split; [reflexivity|]); cbn; tauto.
Qed.

(** The comprehension keeps one requirement per element, in order. *)
Lemma validate_each_Ok lib l rs :
  validate_each lib l = Ok rs <->
  Forall2 (fun o r => PaymentRequirement_model_validate lib o = Ok r) l rs.
Proof.
  revert rs. induction l as [|o l IH]; intros rs; cbn [validate_each].
  - split.
    + intros [= <-]. constructor.
    + intros H. inversion H. reflexivity.
  - split.
    + destruct (PaymentRequirement_model_validate lib o) as [r|e] eqn:Ho;
        [|discriminate].
      cbn [rbind].
      destruct (validate_each lib l) as [rs'|e] eqn:Hl; [|discriminate].
      intros [= <-]. constructor; [exact Ho|]. apply IH. reflexivity.
    + intros H. inversion H as [|? r ? rs' Ho Hl]; subst.
      rewrite Ho. cbn [rbind].
      apply IH in Hl. rewrite Hl. reflexivity.
Qed.

(** It raises as soon as one element does not validate, with the error of
    the first such element. *)
Lemma validate_each_Raise lib l o e :
  In o l ->
  PaymentRequirement_model_validate lib o = Raise e ->
  exists fields, validate_each lib l = Raise (ValidationError fields).
Proof.
  induction l as [|x l IH]; [intros []|].
  intros Hin Ho. cbn [validate_each].
  destruct (PaymentRequirement_model_validate lib x) as [r|ex] eqn:Hx.
  - cbn [rbind]. destruct Hin as [->|Hin]; [congruence|].
    destruct (IH Hin Ho) as [fields ->]. eauto.
  - cbn [rbind]. destruct (model_validate_raises _ _ _ Hx) as [fields ->].
    eauto.
Qed.

(** ** request *)

Lemma request_eq lib co method url kwargs w :
  request lib co method url kwargs w =
  let rq := request_sent method url kwargs w in
  let response := session_request co (sent w) rq in
  (if (status_code response =? 402)%Z then
     match parse_requirements lib response with
     | Ok r => Ok r
     | Raise e =>
         if is_ValueError_or_KeyError e
         then Raise (X402PaymentRequiredError (Invalid_402_response e) [])
         else Raise e
     end
   else Ok response,
   after_request w rq).
Proof.
  unfold request, bind, session_request_call, ret, raise.
  fold (request_sent method url kwargs w). cbv zeta.
  destruct (status_code _ =? 402)%Z; [|reflexivity].
  destruct (parse_requirements lib _) as [r|e]; [reflexivity|].
  destruct (is_ValueError_or_KeyError e); reflexivity.
Qed.

Lemma signatures_requested_app (t1 t2 : list Event) :
  signatures_requested (t1 ++ t2) =
  (signatures_requested t1 ++ signatures_requested t2)%list.
Proof.
  induction t1 as [|e t1 IH]; [reflexivity|].
  destruct e; cbn; rewrite IH; reflexivity.
Qed.

(** A string is no requirement: it is rejected as not being a dict. *)
Lemma model_validate_str lib (k : string) :
  PaymentRequirement_model_validate lib (PyStr k) = Raise (ValidationError []).
Proof. reflexivity. Qed.

(** The comprehension raises the error of the first element that does not
    validate, whatever comes after it. *)
Lemma validate_each_first_failure lib good o rest e :
  Forall (fun x => exists r, PaymentRequirement_model_validate lib x = Ok r)
         good ->
  PaymentRequirement_model_validate lib o = Raise e ->
  validate_each lib (good ++ o :: rest) = Raise e.
Proof.
  intros Hgood Ho. induction Hgood as [|x good [r Hx] _ IH].
  - cbn [app validate_each]. rewrite Ho. reflexivity.
  - cbn [app validate_each]. rewrite Hx. cbn [rbind]. rewrite IH.
    reflexivity.
Qed.

(** A list with an element that does not validate has a first such
    element. *)
Lemma first_failure lib l o e :
  In o l ->
  PaymentRequirement_model_validate lib o = Raise e ->
  exists good o' rest e',
    l = (good ++ o' :: rest)%list /\
    Forall (fun x => exists r, PaymentRequirement_model_validate lib x = Ok r)
           good /\
    PaymentRequirement_model_validate lib o' = Raise e'.
Proof.
  induction l as [|x l IH]; [intros []|].
  intros Hin Ho.
  destruct (PaymentRequirement_model_validate lib x) as [r|ex] eqn:Hx.
  - destruct Hin as [-> | Hin]; [congruence|].
    destruct (IH Hin Ho) as (good & o' & rest & e' & -> & Hgood & Ho').
    exists (x :: good), o', rest, e'. split; [reflexivity|].
    split; [constructor; eauto | exact Ho'].
  - exists [], x, l, ex. split; [reflexivity|]. split; [constructor | exact Hx].
Qed.

(** C5, as the code has it. On a 402 response [request] signals the error
    with the raw exception and no requirements when the body is not JSON,
    when it is a JSON object without [accepts], when [accepts] is a list
    with an element that does not validate as a requirement (the exception
    is the one raised for the first such element; a scheme or a network
    outside the closed sets is rejected with that field reported), and
    when [accepts] is a non-empty object or a non-empty string, whose keys
    or characters are iterated and are no requirements. It signals the
    error with the decoded body and all the requirements, in order, when
    [accepts] is a list of valid requirements, whatever [x402Version] or
    [error] hold; an empty object or an empty string counts as an empty
    list. *)
Theorem request_on_402 lib co method url kwargs w :
  let rq := request_sent method url kwargs w in
  let response := session_request co (sent w) rq in
  let outcome := request lib co method url kwargs w in
  let valid := fun o r => PaymentRequirement_model_validate lib o = Ok r in
  let invalid_402 := fun e =>
    Raise (X402PaymentRequiredError (Invalid_402_response e) []) in
  let payment_required := fun data rs =>
    Raise (X402PaymentRequiredError (Payment_required data) rs) in
  status_code response = 402 ->
  snd outcome = after_request w rq /\
  (forall e,
     json response = Raise e -> is_ValueError_or_KeyError e = true ->
     fst outcome = invalid_402 e) /\
  (forall items,
     json response = Ok (PyDict items) -> dict_get "accepts" items = None ->
     fst outcome = invalid_402 (KeyError "accepts")) /\
  (forall items l,
     json response = Ok (PyDict items) ->
     dict_get "accepts" items = Some (PyList l) ->
     (forall good o rest e,
        l = (good ++ o :: rest)%list ->
        Forall (fun x => exists r, valid x r) good ->
        PaymentRequirement_model_validate lib o = Raise e ->
        fst outcome = invalid_402 e) /\
     (forall o e,
        In o l -> PaymentRequirement_model_validate lib o = Raise e ->
        exists good o' rest e',
          l = (good ++ o' :: rest)%list /\
          Forall (fun x => exists r, valid x r) good /\
          PaymentRequirement_model_validate lib o' = Raise e' /\
          fst outcome = invalid_402 e') /\
     (forall rs,
        Forall2 valid l rs ->
        length rs = length l /\
        fst outcome = payment_required (PyDict items) rs)) /\
  (forall items d,
     json response = Ok (PyDict items) ->
     dict_get "accepts" items = Some (PyDict d) ->
     fst outcome =
     match d with
     | [] => payment_required (PyDict items) []
     | _ :: _ => invalid_402 (ValidationError [])
     end) /\
  (forall items s,
     json response = Ok (PyDict items) ->
     dict_get "accepts" items = Some (PyStr s) ->
     fst outcome =
     match s with
     | EmptyString => payment_required (PyDict items) []
     | String _ _ => invalid_402 (ValidationError [])
     end) /\
  (forall items v,
     (dict_get "scheme" items = Some v /\
      (forall s, v <> PyStr (PaymentScheme_value s)) /\
      (forall s, v <> PyScheme s) ->
      exists fields,
        PaymentRequirement_model_validate lib (PyDict items) =
        Raise (ValidationError fields) /\ In "scheme" fields) /\
     (dict_get "network" items = Some v /\
      (forall n, v <> PyStr (PaymentNetwork_value n)) /\
      (forall n, v <> PyNetwork n) ->
      exists fields,
        PaymentRequirement_model_validate lib (PyDict items) =
        Raise (ValidationError fields) /\ In "network" fields)).
Proof.
  intros rq response outcome valid invalid_402 payment_required Hstatus.
  subst outcome response rq valid invalid_402 payment_required.
  rewrite request_eq. cbv zeta beta.
  rewrite Hstatus. cbn [Z.eqb Pos.eqb fst snd].
  split; [reflexivity|].
  unfold parse_requirements.
  split; [|split; [|split; [|split; [|split]]]].
  - intros e -> He. cbn [rbind]. rewrite He. reflexivity.
  - intros items -> Hget. cbn [rbind getitem]. rewrite Hget. reflexivity.
  - intros items l -> Hget. cbn [rbind getitem]. rewrite Hget.
    cbn [rbind iter].
    split; [|split].
    + intros good o rest e Hl Hgood Ho. subst l.
      rewrite (validate_each_first_failure lib good o rest e Hgood Ho).
      destruct (model_validate_raises _ _ _ Ho) as [fields ->].
      reflexivity.
    + intros o e Hin Ho.
      destruct (first_failure lib l o e Hin Ho)
        as (good & o' & rest & e' & Hl & Hgood & Ho').
      exists good, o', rest, e'.
      split; [exact Hl|]. split; [exact Hgood|]. split; [exact Ho'|].
      subst l.
      rewrite (validate_each_first_failure lib good o' rest e' Hgood Ho').
      destruct (model_validate_raises _ _ _ Ho') as [fields ->].
      reflexivity.
    + intros rs Hrs. split.
      * symmetry. exact (Forall2_length _ _ _ Hrs).
      * apply validate_each_Ok in Hrs. rewrite Hrs. reflexivity.
  - intros items d -> Hget. cbn [rbind getitem]. rewrite Hget.
    cbn [rbind iter]. destruct d as [|[k v] d]; reflexivity.
  - intros items s -> Hget. cbn [rbind getitem]. rewrite Hget.
    cbn [rbind iter]. destruct s as [|c s]; reflexivity.
  - intros items v. split.
    + intros (Hget & Hstr & Hmem).
      destruct (model_validate_unknown_scheme lib items v Hget Hstr Hmem)
        as [fields ->].
      eexists. split; [reflexivity | left; reflexivity].
    + intros (Hget & Hstr & Hmem).
      exact (model_validate_unknown_network lib items v Hget Hstr Hmem).
Qed.

Lemma request_on_402_witness :
  let body := body_402 [premium_json "base-mainnet" USDC_BASE 300] in
  let broken :=
    body_402 [premium_json "base-mainnet" USDC_BASE 300;
              premium_json "solana" USDC_BASE 300] in
  fst (request plain_lib (fake_account (frozen 1700000000) (always_402 body))
         "GET" "/premium" no_kwargs fresh_world) =
  Raise (X402PaymentRequiredError (Payment_required body)
           [premium BASE_MAINNET USDC_BASE 300]) /\
  fst (request plain_lib
         (fake_account (frozen 1700000000) (always_402 broken))
         "GET" "/premium" no_kwargs fresh_world) =
  Raise (X402PaymentRequiredError
           (Invalid_402_response (ValidationError ["network"])) []).
Proof.
  intros body broken. split.
  - destruct (request_on_402 plain_lib
                (fake_account (frozen 1700000000) (always_402 body))
                "GET" "/premium" no_kwargs fresh_world
                ltac:(reflexivity)) as (_ & _ & _ & Hlist & _).
    destruct (Hlist [("x402Version", PyInt 1);
                     ("accepts",
                      PyList [premium_json "base-mainnet" USDC_BASE 300])]
                    [premium_json "base-mainnet" USDC_BASE 300]
                    ltac:(reflexivity) ltac:(reflexivity))
      as (_ & _ & Hvalid).
    apply (Hvalid [premium BASE_MAINNET USDC_BASE 300]).
    constructor; [evaluated | constructor].
  - destruct (request_on_402 plain_lib
                (fake_account (frozen 1700000000) (always_402 broken))
                "GET" "/premium" no_kwargs fresh_world
                ltac:(reflexivity)) as (_ & _ & _ & Hlist & _).
    destruct (Hlist [("x402Version", PyInt 1);
                     ("accepts",
                      PyList [premium_json "base-mainnet" USDC_BASE 300;
                              premium_json "solana" USDC_BASE 300])]
                    [premium_json "base-mainnet" USDC_BASE 300;
                     premium_json "solana" USDC_BASE 300]
                    ltac:(reflexivity) ltac:(reflexivity))
      as (Hfirst & _ & _).
    apply (Hfirst [premium_json "base-mainnet" USDC_BASE 300]
                  (premium_json "solana" USDC_BASE 300) []
                  (ValidationError ["network"]) ltac:(reflexivity)).
    + constructor; [|constructor]. eexists. evaluated.
    + evaluated.
Defined.

(** C5, as stated, fails: a body without [x402Version] does not validate
    as a [PaymentRequiredResponse], yet [request] reads its [accepts] and
    signals that payment is required, with the requirement parsed. *)
Lemma request_on_402_counterexample :
  let body :=
    PyDict [("accepts", PyList [premium_json "base-mainnet" USDC_BASE 300])] in
  let co := fake_account (frozen 1700000000) (always_402 body) in
  PaymentRequiredResponse_model_validate plain_lib body =
    Raise (ValidationError ["x402Version"]) /\
  fst (request plain_lib co "GET" "/premium" no_kwargs fresh_world) =
    Raise (X402PaymentRequiredError (Payment_required body)
             [premium BASE_MAINNET USDC_BASE 300]).
Proof. split; evaluated. Qed.

(** ** auto_pay_request *)

(** C7: when [request] signals a 402 with no requirements, parsed from an
    empty [accepts] or left empty by a malformed body, [auto_pay_request]
    raises "No payment options available"; the one HTTP request apart,
    the world is as before: nothing was drawn, the clock was not read, no
    signature was asked for. *)
Theorem auto_pay_request_no_options lib co method url kwargs w message :
  fst (request lib co method url kwargs w) =
    Raise (X402PaymentRequiredError message []) ->
  let w' := after_request w (request_sent method url kwargs w) in
  auto_pay_request lib co method url kwargs w =
    (Raise (ValueError "No payment options available"), w') /\
  signatures_requested (trace w') = signatures_requested (trace w) /\
  draws w' = draws w /\ clock_reads w' = clock_reads w.
Proof.
  intros H w'. split; [|split; [|split; reflexivity]].
  - unfold auto_pay_request, try_except.
    destruct (request lib co method url kwargs w) as [r w1] eqn:E.
    cbn [fst] in H. subst r.
    pose proof (f_equal snd E) as Hw. rewrite request_eq in Hw.
    cbn [snd] in Hw. subst w1. reflexivity.
  - subst w'. cbn [after_request trace].
    rewrite signatures_requested_app. cbn. apply app_nil_r.
Qed.

Lemma auto_pay_request_no_options_witness :
  let co := fake_account (frozen 1700000000) (always_402 (body_402 [])) in
  fst (auto_pay_request plain_lib co "GET" "/premium" no_kwargs fresh_world) =
    Raise (ValueError "No payment options available") /\
  signatures_requested
    (trace (snd (auto_pay_request plain_lib co "GET" "/premium" no_kwargs
                   fresh_world))) = [].
Proof.
  intros co.
  destruct (auto_pay_request_no_options plain_lib co "GET" "/premium"
              no_kwargs fresh_world (Payment_required (body_402 []))
              ltac:(evaluated)) as (-> & Hs & _).
  split; [reflexivity | exact Hs].
Defined.

(** ** pay_and_request *)

(** The call, step by step. When the signer returns a payload, encoding it
    raises, and the assignment to [headers] and the request that follow are
    never reached. *)
Lemma pay_and_request_eq lib co method url req amount kwargs w :
  pay_and_request lib co method url req amount kwargs w =
  match create_exact_payment co req amount w with
  | (Raise e, w1) => (Raise e, w1)
  | (Ok payment, w1) =>
      (Raise (TypeError
                "Object of type PaymentScheme is not JSON serializable"),
       match kw_headers kwargs with
       | Some _ => w1
       | None => after_new_dict w1
       end)
  end.
Proof.
  unfold pay_and_request, bind.
  destruct (create_exact_payment co req amount w) as [[payment|e] w1];
    [|reflexivity].
  destruct (kw_headers kwargs); reflexivity.
Qed.

(** [pay_and_request] never returns and never sends. *)
Lemma pay_and_request_raises lib co method url req amount kwargs w :
  let outcome := pay_and_request lib co method url req amount kwargs w in
  (exists e, fst outcome = Raise e) /\ sent (snd outcome) = sent w.
Proof.
  cbv zeta. rewrite pay_and_request_eq.
  pose proof (create_exact_payment_frame co req amount w) as [Hs _].
  cbv zeta in Hs.
  destruct (create_exact_payment co req amount w) as [[payment|e] w1];
    cbn [fst snd] in *.
  - split; [eauto|]. destruct (kw_headers kwargs); exact Hs.
  - split; [eauto | exact Hs].
Qed.

(** C10, on the code: with a [headers] dict passed by the caller the call
    raises before the assignment; the heap, and with it the caller's dict,
    is as it was, and holds no [X-PAYMENT] that was not there. *)
Theorem pay_and_request_headers lib co method url req amount kwargs w l :
  kw_headers kwargs = Some l ->
  let outcome := pay_and_request lib co method url req amount kwargs w in
  (exists e, fst outcome = Raise e) /\
  heap (snd outcome) = heap w.
Proof.
  intros Hl. cbv zeta.
  split; [apply pay_and_request_raises|].
  rewrite pay_and_request_eq.
  pose proof (create_exact_payment_frame co req amount w) as [_ Hh].
  cbv zeta in Hh.
  destruct (create_exact_payment co req amount w) as [[payment|e] w1];
    cbn [fst snd] in *; [rewrite Hl|]; exact Hh.
Qed.

Lemma pay_and_request_headers_witness :
  let co := fake_account (frozen 1700000000) (paywall (body_402 [])) in
  let outcome :=
    pay_and_request plain_lib co "GET" "/premium"
      (premium BASE_MAINNET USDC_BASE 300) None with_headers fresh_world in
  fst outcome =
    Raise (TypeError "Object of type PaymentScheme is not JSON serializable") /\
  heap (snd outcome) !! 0%nat = Some {[ "Accept" := "application/json" ]} /\
  sent (snd outcome) = 0%nat.
Proof.
  intros co outcome.
  destruct (pay_and_request_headers plain_lib co "GET" "/premium"
              (premium BASE_MAINNET USDC_BASE 300) None with_headers
              fresh_world 0%nat ltac:(reflexivity)) as [_ Hh].
  fold outcome in Hh. rewrite Hh.
  split; [evaluated|]. split; [evaluated | evaluated].
Defined.

(** On a 402 with requirements the handler prints its notice and calls
    [pay_and_request] with the first of them, and with nothing else. *)
Lemma auto_pay_request_delegates lib co method url kwargs w message first
    others :
  fst (request lib co method url kwargs w) =
    Raise (X402PaymentRequiredError message (first :: others)) ->
  auto_pay_request lib co method url kwargs w =
  pay_and_request lib co method url first None kwargs
    (after_print (after_request w (request_sent method url kwargs w)) first).
Proof.
  intros H. unfold auto_pay_request, try_except.
  destruct (request lib co method url kwargs w) as [r w0] eqn:E.
  cbn [fst] in H. subst r.
  pose proof (f_equal snd E) as Hw. rewrite request_eq in Hw.
  cbn [snd] in Hw. subst w0. reflexivity.
Qed.

(** C6, on the code: on a 402 with requirements [auto_pay_request] prints
    its notice and hands the first requirement to [pay_and_request], which
    raises; the request is not sent again and no response is returned. *)
Theorem auto_pay_request_first lib co method url kwargs w message first others :
  fst (request lib co method url kwargs w) =
    Raise (X402PaymentRequiredError message (first :: others)) ->
  let w1 := after_request w (request_sent method url kwargs w) in
  let outcome := auto_pay_request lib co method url kwargs w in
  outcome =
    pay_and_request lib co method url first None kwargs (after_print w1 first) /\
  (exists e, fst outcome = Raise e) /\
  sent (snd outcome) = S (sent w).
Proof.
  intros H w1 outcome.
  pose proof (auto_pay_request_delegates _ _ _ _ _ _ _ _ _ H) as E.
  fold w1 outcome in E.
  split; [exact E|]. rewrite E.
  destruct (pay_and_request_raises lib co method url first None kwargs
              (after_print w1 first)) as [Hr Hs].
  split; [exact Hr|]. rewrite Hs. reflexivity.
Qed.

Lemma auto_pay_request_first_witness :
  let body := body_402 [premium_json "base-mainnet" USDC_BASE 300] in
  let co := fake_account (frozen 1700000000) (always_402 body) in
  let outcome :=
    auto_pay_request plain_lib co "GET" "/premium" no_kwargs fresh_world in
  fst outcome =
    Raise (TypeError "Object of type PaymentScheme is not JSON serializable") /\
  sent (snd outcome) = 1%nat /\
  length (signatures_requested (trace (snd outcome))) = 1%nat.
Proof.
  intros body co outcome.
  destruct (auto_pay_request_first plain_lib co "GET" "/premium" no_kwargs
              fresh_world (Payment_required body)
              (premium BASE_MAINNET USDC_BASE 300) [] ltac:(evaluated))
    as (_ & _ & Hs).
  split; [evaluated|]. split; [exact Hs | evaluated].
Defined.

(** C1, on the code: the server of the example answers 402 with the one
    base-sepolia requirement; [auto_pay_request] selects it, and the signer
    looks its asset up under chain 8453, where it is not listed: the call
    raises, nothing is signed and the request is not sent again. *)
Theorem auto_pay_request_premium lib co kwargs w :
  session_request co (sent w) (request_sent "GET" "/premium" kwargs w) =
    {| status_code := 402;
       json := Ok (body_402
                     [premium_json "base-sepolia" USDC_BASE_SEPOLIA 300]) |} ->
  let outcome := auto_pay_request lib co "GET" "/premium" kwargs w in
  fst outcome =
    Raise (ValueError
      "Token not found for chain 8453 and address 0x036CbD53842c5426634e7929541eC2318f3dCF7e") /\
  sent (snd outcome) = S (sent w) /\
  signatures_requested (trace (snd outcome)) =
    signatures_requested (trace w).
Proof.
  intros Hresp outcome.
  assert (fst (request lib co "GET" "/premium" kwargs w) =
          Raise (X402PaymentRequiredError
                   (Payment_required
                      (body_402
                         [premium_json "base-sepolia" USDC_BASE_SEPOLIA 300]))
                   [premium BASE_SEPOLIA USDC_BASE_SEPOLIA 300])) as Hreq.
  { rewrite request_eq. cbv zeta. rewrite Hresp. reflexivity. }
  pose proof (auto_pay_request_delegates _ _ _ _ _ _ _ _ _ Hreq) as E.
  subst outcome. rewrite E, pay_and_request_eq, create_exact_payment_eq.
  cbv zeta.
  assert (_get_token_name
            (py_str_int
               (_get_chain_id
                  (network (premium BASE_SEPOLIA USDC_BASE_SEPOLIA 300))))
            (asset (premium BASE_SEPOLIA USDC_BASE_SEPOLIA 300)) =
          Raise (token_not_found "8453" USDC_BASE_SEPOLIA)) as ->
    by evaluated.
  cbn [fst snd]. split; [reflexivity|]. split; [reflexivity|].
  cbn [before_signing after_print after_request trace].
  rewrite !signatures_requested_app. cbn. rewrite !app_nil_r. reflexivity.
Qed.

Lemma auto_pay_request_premium_witness :
  let co :=
    fake_account (frozen 1700000000)
      (paywall (body_402
                  [premium_json "base-sepolia" USDC_BASE_SEPOLIA 300])) in
  let outcome :=
    auto_pay_request plain_lib co "GET" "/premium" no_kwargs fresh_world in
  fst outcome =
    Raise (ValueError
      "Token not found for chain 8453 and address 0x036CbD53842c5426634e7929541eC2318f3dCF7e") /\
  sent (snd outcome) = 1%nat /\
  signatures_requested (trace (snd outcome)) = [].
Proof.
  intros co outcome.
  exact (auto_pay_request_premium plain_lib co no_kwargs fresh_world eq_refl).
Defined.

(** * Further properties *)

(** ** The constructor *)

Lemma prefix_0x_app (k : string) : String.prefix "0x" ("0x" +:+ k) = true.
Proof. cbn. destruct k; reflexivity. Qed.

(** The signer hands [Account.from_key] a key that starts with [0x]: a key
    given with the prefix is passed as it is, a key given without it is
    passed with the prefix added, so both spellings of a key give the same
    account (or the same refusal). *)
Theorem SimpleX402Signer_init_prefix (Account : Type)
    (from_key : string -> result Account) (k : string) :
  (String.prefix "0x" k = true ->
   SimpleX402Signer_init Account from_key k = from_key k) /\
  (String.prefix "0x" k = false ->
   SimpleX402Signer_init Account from_key k = from_key ("0x" +:+ k) /\
   SimpleX402Signer_init Account from_key ("0x" +:+ k) =
   SimpleX402Signer_init Account from_key k).
Proof.
  unfold SimpleX402Signer_init. split.
  - intros ->. reflexivity.
  - intros H. rewrite H. split; [reflexivity|].
    rewrite prefix_0x_app. reflexivity.
Qed.

Lemma SimpleX402Signer_init_prefix_witness :
  SimpleX402Signer_init string Ok "0xabc" = Ok "0xabc" /\
  SimpleX402Signer_init string Ok "abc" = Ok "0xabc".
Proof.
  destruct (SimpleX402Signer_init_prefix string Ok "0xabc") as [H1 _].
  destruct (SimpleX402Signer_init_prefix string Ok "abc") as [_ H2].
  split.
  - exact (H1 eq_refl).
  - exact (proj1 (H2 eq_refl)).
Defined.

(** ** The token registry *)

Lemma known_tokens_lookup (chain_id : string) :
  KNOWN_TOKENS !! chain_id =
  if String.eqb chain_id "84532" then
    Some [ {| human_name := "usdc"; address := USDC_BASE_SEPOLIA;
              name := "USDC"; decimals := 6; version := "2" |} ]
  else if String.eqb chain_id "8453" then
    Some [ {| human_name := "usdc"; address := USDC_BASE;
              name := "USD Coin"; decimals := 6; version := "2" |} ]
  else if String.eqb chain_id "43113" then
    Some [ {| human_name := "usdc";
              address := "0x5425890298aed601595a70AB815c96711a31Bc65";
              name := "USD Coin"; decimals := 6; version := "2" |} ]
  else if String.eqb chain_id "43114" then
    Some [ {| human_name := "usdc";
              address := "0xB97EF9Ef8734C71904D8002F8b6Bc66Dd9c48a6E";
              name := "USDC"; decimals := 6; version := "2" |} ]
  else None.
Proof.
  unfold KNOWN_TOKENS. cbn [list_to_map foldr uncurry fst snd].
  destruct (String.eqb_spec chain_id "84532") as [->|H1];
    [apply lookup_insert_eq|].
  rewrite lookup_insert_ne by congruence.
  destruct (String.eqb_spec chain_id "8453") as [->|H2];
    [apply lookup_insert_eq|].
  rewrite lookup_insert_ne by congruence.
  destruct (String.eqb_spec chain_id "43113") as [->|H3];
    [apply lookup_insert_eq|].
  rewrite lookup_insert_ne by congruence.
  destruct (String.eqb_spec chain_id "43114") as [->|H4];
    [apply lookup_insert_eq|].
  rewrite lookup_insert_ne by congruence.
  apply lookup_empty.
Qed.

(** The registry answers for four (chain id, address) pairs and for no
    other: addresses are compared character for character, so the same
    address in another letter case is not found. *)
Theorem _get_token_name_exact (chain_id addr n : string) :
  _get_token_name chain_id addr = Ok n <->
  (chain_id = "84532" /\ addr = USDC_BASE_SEPOLIA /\ n = "USDC") \/
  (chain_id = "8453" /\ addr = USDC_BASE /\ n = "USD Coin") \/
  (chain_id = "43113" /\
   addr = "0x5425890298aed601595a70AB815c96711a31Bc65" /\ n = "USD Coin") \/
  (chain_id = "43114" /\
   addr = "0xB97EF9Ef8734C71904D8002F8b6Bc66Dd9c48a6E" /\ n = "USDC").
Proof.
  unfold _get_token_name. rewrite known_tokens_lookup. split.
  - destruct (String.eqb_spec chain_id "84532") as [->|H1].
    { cbn [first_token address name].
      destruct (String.eqb_spec USDC_BASE_SEPOLIA addr) as [<-|_];
        [|discriminate].
      intros [= <-]. left. auto. }
    destruct (String.eqb_spec chain_id "8453") as [->|H2].
    { cbn [first_token address name].
      destruct (String.eqb_spec USDC_BASE addr) as [<-|_]; [|discriminate].
      intros [= <-]. right. left. auto. }
    destruct (String.eqb_spec chain_id "43113") as [->|H3].
    { cbn [first_token address name].
      destruct (String.eqb_spec
                  "0x5425890298aed601595a70AB815c96711a31Bc65" addr)
        as [<-|_]; [|discriminate].
      intros [= <-]. right. right. left. auto. }
    destruct (String.eqb_spec chain_id "43114") as [->|H4].
    { cbn [first_token address name].
      destruct (String.eqb_spec
                  "0xB97EF9Ef8734C71904D8002F8b6Bc66Dd9c48a6E" addr)
        as [<-|_]; [|discriminate].
      intros [= <-]. right. right. right. auto. }
    discriminate.
  - intros [(-> & -> & ->) | [(-> & -> & ->) | [(-> & -> & ->) |
            (-> & -> & ->)]]]; reflexivity.
Qed.

(** A chain id without a row raises [KeyError] with that id; a chain id
    with a row and an address that is not listed under it raises the
    token-not-found [ValueError]. *)
Theorem _get_token_name_errors (chain_id addr : string) (e : exn) :
  _get_token_name chain_id addr = Raise e ->
  (e = KeyError chain_id /\ KNOWN_TOKENS !! chain_id = None) \/
  (e = ValueError ("Token not found for chain " +:+ chain_id +:+
                   " and address " +:+ addr) /\
   exists tokens,
     KNOWN_TOKENS !! chain_id = Some tokens /\
     Forall (fun token => address token <> addr) tokens).
Proof.
  unfold _get_token_name.
  destruct (KNOWN_TOKENS !! chain_id) as [tokens|]; [|intros [= <-]; auto].
  destruct (first_token tokens addr) as [token|] eqn:Hf; [discriminate|].
  intros [= <-]. right. split; [reflexivity|].
  exists tokens. split; [reflexivity|].
  induction tokens as [|t tokens IH]; [constructor|].
  cbn [first_token] in Hf.
  destruct (String.eqb_spec (address t) addr) as [_|Hne]; [discriminate|].
  constructor; [exact Hne | exact (IH Hf)].
Qed.

Lemma _get_token_name_errors_witness :
  _get_token_name "1" USDC_BASE = Raise (KeyError "1") /\
  _get_token_name "8453" "0x833589fcd6edb6e08f4c7c32d4f71b54bda02913" =
    Raise (ValueError
      "Token not found for chain 8453 and address 0x833589fcd6edb6e08f4c7c32d4f71b54bda02913").
Proof.
  split.
  - destruct (_get_token_name_errors "1" USDC_BASE (KeyError "1")
                ltac:(evaluated)) as [[_ _] | [H _]];
      [evaluated | discriminate H].
  - destruct (_get_token_name_errors "8453"
                "0x833589fcd6edb6e08f4c7c32d4f71b54bda02913"
                (token_not_found "8453"
                   "0x833589fcd6edb6e08f4c7c32d4f71b54bda02913")
                ltac:(evaluated)) as [[H _] | [_ _]];
      [discriminate H | evaluated].
Defined.

(** The two lookups of a call read the same row in the same way: the
    version is found exactly when the name is, and when one raises the
    other raises the same exception. *)
Theorem _get_token_version_like_name (chain_id addr : string) :
  ((exists n, _get_token_name chain_id addr = Ok n) <->
   (exists v, _get_token_version chain_id addr = Ok v)) /\
  (forall e,
     _get_token_name chain_id addr = Raise e <->
     _get_token_version chain_id addr = Raise e).
Proof.
  unfold _get_token_name, _get_token_version.
  destruct (KNOWN_TOKENS !! chain_id) as [tokens|].
  - destruct (first_token tokens addr) as [token|].
    + split; [split; eauto|]. intros e. split; discriminate.
    + split; [split; intros [? [=]]|]. intros e. tauto.
  - split; [split; intros [? [=]]|]. intros e. tauto.
Qed.

(** ** More on create_exact_payment *)

(** [str] of an integer determines the integer. *)
Lemma py_str_int_inj (a b : Z) : py_str_int a = py_str_int b -> a = b.
Proof.
  unfold py_str_int. intros H.
  assert (forall z, Z.to_int z <> Decimal.Pos Decimal.Nil /\
                    Z.to_int z <> Decimal.Neg Decimal.Nil) as Hnil.
  { intros [|p|p]; cbn; split; try discriminate;
      intros [= E]; exact (DecimalPos.Unsigned.to_uint_nonnil p E). }
  apply (f_equal DecimalString.NilZero.int_of_string) in H.
  rewrite !DecimalString.NilZero.isi in H by apply Hnil.
  injection H as H. apply (f_equal Z.of_int) in H.
  rewrite !DecimalZ.of_to in H. exact H.
Qed.

(** [int] of a float does not decrease when the float does not. *)
Lemma py_int_of_float_mono (x y : Q) :
  (x <= y)%Q -> py_int_of_float x <= py_int_of_float y.
Proof.
  unfold py_int_of_float, Qle. destruct x as [a c], y as [b d]. cbn.
  intros H.
  rewrite <- (Z.quot_mul_cancel_r a (Z.pos c) (Z.pos d)) by lia.
  rewrite <- (Z.quot_mul_cancel_r b (Z.pos d) (Z.pos c)) by lia.
  rewrite (Z.mul_comm (Z.pos d) (Z.pos c)).
  apply Z.quot_le_mono; lia.
Qed.

(** What the registry gives for the network and the asset of a
    requirement. *)
Lemma requirement_token_name (req : PaymentRequirement) :
  _get_token_name (py_str_int (_get_chain_id (network req))) (asset req) =
  match network req with
  | BASE_SEPOLIA | BASE_MAINNET =>
      if String.eqb USDC_BASE (asset req) then Ok "USD Coin"
      else Raise (token_not_found "8453" (asset req))
  | ETHEREUM_MAINNET => Raise (KeyError "1")
  | ETHEREUM_SEPOLIA => Raise (KeyError "11155111")
  end.
Proof.
  destruct (network req) eqn:E.
  - apply _get_token_name_base. auto.
  - apply _get_token_name_base. auto.
  - unfold _get_token_name.
    rewrite (known_tokens_ethereum ETHEREUM_SEPOLIA) by auto. reflexivity.
  - unfold _get_token_name.
    rewrite (known_tokens_ethereum ETHEREUM_MAINNET) by auto. reflexivity.
Qed.

Lemma requirement_token_version (req : PaymentRequirement) :
  _get_token_version (py_str_int (_get_chain_id (network req))) (asset req) =
  match network req with
  | BASE_SEPOLIA | BASE_MAINNET =>
      if String.eqb USDC_BASE (asset req) then Ok "2"
      else Raise (token_not_found "8453" (asset req))
  | ETHEREUM_MAINNET => Raise (KeyError "1")
  | ETHEREUM_SEPOLIA => Raise (KeyError "11155111")
  end.
Proof.
  destruct (network req) eqn:E.
  - apply _get_token_version_base. auto.
  - apply _get_token_version_base. auto.
  - unfold _get_token_version.
    rewrite (known_tokens_ethereum ETHEREUM_SEPOLIA) by auto. reflexivity.
  - unfold _get_token_version.
    rewrite (known_tokens_ethereum ETHEREUM_MAINNET) by auto. reflexivity.
Qed.

(** On a Base network with the listed asset the call reaches the account,
    under the one domain [usdc_base_domain]. *)
Lemma create_exact_payment_base co req amount w :
  network req = BASE_SEPOLIA \/ network req = BASE_MAINNET ->
  asset req = USDC_BASE ->
  let m := exact_message co req (amount_paid req amount) w in
  create_exact_payment co req amount w =
  (match sign_typed_data co usdc_base_domain types m with
   | Ok sg =>
       Ok {| x402_version := 1; payload_scheme := scheme req;
             payload_network := network req; payload := payload_of m sg |}
   | Raise e => Raise e
   end, after_signing w usdc_base_domain m).
Proof.
  intros Hn Ha m. rewrite create_exact_payment_eq. cbv zeta.
  rewrite requirement_token_name, requirement_token_version.
  assert (String.eqb USDC_BASE (asset req) = true) as Hb
    by (rewrite Ha; apply String.eqb_refl).
  assert (exact_domain req "USD Coin" "2" = usdc_base_domain) as Hd.
  { unfold exact_domain, usdc_base_domain. rewrite Ha.
    destruct Hn as [-> | ->]; reflexivity. }
  destruct Hn as [Hn | Hn]; rewrite Hn, Hb, Hd; reflexivity.
Qed.

(** Anywhere else the call raises before the account is reached. *)
Lemma create_exact_payment_elsewhere co req amount w :
  ~ ((network req = BASE_SEPOLIA \/ network req = BASE_MAINNET) /\
     asset req = USDC_BASE) ->
  exists e, create_exact_payment co req amount w = (Raise e, before_signing w).
Proof.
  intros H. rewrite create_exact_payment_eq. cbv zeta.
  rewrite requirement_token_name.
  destruct (network req); eauto;
    (destruct (String.eqb_spec USDC_BASE (asset req)) as [E|_]; [|eauto]);
    destruct H; auto.
Qed.

Lemma payable_dec (req : PaymentRequirement) :
  {(network req = BASE_SEPOLIA \/ network req = BASE_MAINNET) /\
   asset req = USDC_BASE} +
  {~ ((network req = BASE_SEPOLIA \/ network req = BASE_MAINNET) /\
      asset req = USDC_BASE)}.
Proof.
  destruct (String.eqb_spec (asset req) USDC_BASE) as [Ea|Ea];
    [|right; tauto].
  destruct (network req);
    [ left; split; [left; reflexivity | exact Ea]
    | left; split; [right; reflexivity | exact Ea]
    | right; intros [[?|?] _]; discriminate
    | right; intros [[?|?] _]; discriminate ].
Qed.

(** A call that returns was made on a Base network for the listed asset,
    and the account signed under [usdc_base_domain]. *)
Lemma create_exact_payment_Ok_base co req amount w p w' :
  create_exact_payment co req amount w = (Ok p, w') ->
  let m := exact_message co req (amount_paid req amount) w in
  (network req = BASE_SEPOLIA \/ network req = BASE_MAINNET) /\
  asset req = USDC_BASE /\
  exists sg,
    sign_typed_data co usdc_base_domain types m = Ok sg /\
    w' = after_signing w usdc_base_domain m /\
    p = {| x402_version := 1; payload_scheme := scheme req;
           payload_network := network req; payload := payload_of m sg |}.
Proof.
  intros H m.
  destruct (payable_dec req) as [[Hn Ha] | Hno];
    [|destruct (create_exact_payment_elsewhere co req amount w Hno)
        as [e He]; rewrite He in H; discriminate H].
  split; [exact Hn|]. split; [exact Ha|].
  rewrite (create_exact_payment_base co req amount w Hn Ha) in H.
  cbv zeta in H. fold m in H.
  destruct (sign_typed_data co usdc_base_domain types m) as [sg|e];
    [|discriminate H].
  injection H as <- <-. eauto.
Qed.

(** A call returns a payload exactly when the requirement is on a Base
    network, its asset is the address listed for chain 8453, and the
    account signs; base-sepolia is signed for under chain id 8453 as
    well. *)
Theorem create_exact_payment_returns_iff co req amount w :
  (exists p w', create_exact_payment co req amount w = (Ok p, w')) <->
  (network req = BASE_SEPOLIA \/ network req = BASE_MAINNET) /\
  asset req = USDC_BASE /\
  exists sg,
    sign_typed_data co usdc_base_domain types
      (exact_message co req (amount_paid req amount) w) = Ok sg.
Proof.
  split.
  - intros (p & w' & H).
    destruct (create_exact_payment_Ok_base _ _ _ _ _ _ H)
      as (Hn & Ha & sg & Hs & _). eauto.
  - intros (Hn & Ha & sg & Hs).
    rewrite (create_exact_payment_base co req amount w Hn Ha). cbv zeta.
    rewrite Hs. eauto.
Qed.

(** The trace of a call: nothing, or the one request for a signature. *)
Lemma create_exact_payment_trace co req amount w :
  let w' := snd (create_exact_payment co req amount w) in
  trace w' = trace w \/
  ((network req = BASE_SEPOLIA \/ network req = BASE_MAINNET) /\
   asset req = USDC_BASE /\
   trace w' =
   (trace w ++ [Sign usdc_base_domain types
                  (exact_message co req (amount_paid req amount) w)])%list).
Proof.
  cbv zeta. destruct (payable_dec req) as [[Hn Ha] | H].
  - rewrite (create_exact_payment_base co req amount w Hn Ha). cbn. auto.
  - destruct (create_exact_payment_elsewhere co req amount w H) as [e ->].
    cbn. auto.
Qed.

(** Whatever its outcome, a call draws once and reads the clock twice,
    sends nothing, leaves the header dicts alone, and asks the account for
    at most one signature, under the domain of USD Coin on chain 8453. *)
Theorem create_exact_payment_effects co req amount w :
  let w' := snd (create_exact_payment co req amount w) in
  draws w' = S (draws w) /\
  clock_reads w' = S (S (clock_reads w)) /\
  sent w' = sent w /\
  heap w' = heap w /\
  (trace w' = trace w \/
   trace w' =
   (trace w ++ [Sign usdc_base_domain types
                  (exact_message co req (amount_paid req amount) w)])%list).
Proof.
  destruct (payable_dec req) as [[Hn Ha] | H].
  - cbv zeta. rewrite (create_exact_payment_base co req amount w Hn Ha).
    cbn. auto 10.
  - cbv zeta.
    destruct (create_exact_payment_elsewhere co req amount w H) as [e ->].
    cbn. auto 10.
Qed.

(** What is sent is what was signed: the payload of a returning call
    carries version 1 and the scheme and network of the requirement; its
    [from], [to], [value] and [nonce] are those of the one message the
    account signed, with [from] the account's own address and [to] the
    requirement's [pay_to]; its [validAfter] and [validBefore] are the
    decimal forms of the message's integers and of no other; and its
    [signature] holds [r] and [s] in hexadecimal and [v] as an integer. *)
Theorem create_exact_payment_payload co req amount w p w' :
  create_exact_payment co req amount w = (Ok p, w') ->
  exists m sg,
    trace w' = (trace w ++ [Sign usdc_base_domain types m])%list /\
    sign_typed_data co usdc_base_domain types m = Ok sg /\
    x402_version p = 1 /\
    payload_scheme p = scheme req /\
    payload_network p = network req /\
    msg_from m = account_address co /\
    msg_to m = pay_to req /\
    payload_str "from" p = Some (msg_from m) /\
    payload_str "to" p = Some (msg_to m) /\
    payload_str "value" p = Some (msg_value m) /\
    payload_str "nonce" p = Some (nonce m) /\
    (forall n, payload_str "validAfter" p = Some (py_str_int n) <->
               n = validAfter m) /\
    (forall n, payload_str "validBefore" p = Some (py_str_int n) <->
               n = validBefore m) /\
    dict_get "signature" (payload p) =
      Some (PyDict [ ("r", PyStr (py_hex (sig_r sg)));
                     ("s", PyStr (py_hex (sig_s sg)));
                     ("v", PyInt (sig_v sg)) ]).
Proof.
  intros H.
  destruct (create_exact_payment_Ok_base _ _ _ _ _ _ H)
    as (Hn & Ha & sg & Hs & -> & ->).
  exists (exact_message co req (amount_paid req amount) w), sg.
  destruct (payload_of_fields 1 (scheme req) (network req)
              (exact_message co req (amount_paid req amount) w) sg)
    as (Hfrom & Hto & Hvalue & Hafter & Hbefore & Hnonce).
  repeat (split; [first [reflexivity | assumption]|]).
  split; [|split; [|reflexivity]].
  - intros n. rewrite Hafter. split.
    + intros [= E]. symmetry. exact (py_str_int_inj _ _ E).
    + intros ->. reflexivity.
  - intros n. rewrite Hbefore. split.
    + intros [= E]. symmetry. exact (py_str_int_inj _ _ E).
    + intros ->. reflexivity.
Qed.

Lemma create_exact_payment_payload_witness :
  let co := fake_account (frozen 1700000000) (paywall (body_402 [])) in
  let req := premium BASE_SEPOLIA USDC_BASE 300 in
  exists p w',
    create_exact_payment co req None fresh_world = (Ok p, w') /\
    payload_str "from" p = Some "0xPayer" /\
    payload_str "to" p = Some "0xAbc..." /\
    dict_get "signature" (payload p) =
      Some (PyDict [ ("r", PyStr "0x1"); ("s", PyStr "0x2");
                     ("v", PyInt 27) ]).
Proof.
  intros co req.
  outcome_of (create_exact_payment co req None fresh_world)
    ltac:(fun p w' =>
      exists p, w'; split; [evaluated|];
      destruct (create_exact_payment_payload co req None fresh_world p w'
                  ltac:(evaluated))
        as (m & sg & _ & _ & _ & _ & _ & _ & _ & Hf & Ht & _ & _ & _ & _ & Hsig);
      split; [evaluated|]; split; [evaluated | evaluated]).
Defined.

(** When the account refuses to sign, the call raises the account's
    exception; the request for the signature was made and no payload is
    returned. *)
Theorem create_exact_payment_sign_refused co req amount w e :
  network req = BASE_SEPOLIA \/ network req = BASE_MAINNET ->
  asset req = USDC_BASE ->
  sign_typed_data co usdc_base_domain types
    (exact_message co req (amount_paid req amount) w) = Raise e ->
  create_exact_payment co req amount w =
  (Raise e,
   after_signing w usdc_base_domain
     (exact_message co req (amount_paid req amount) w)).
Proof.
  intros Hn Ha Hs.
  rewrite (create_exact_payment_base co req amount w Hn Ha). cbv zeta.
  rewrite Hs. reflexivity.
Qed.

Lemma create_exact_payment_sign_refused_witness :
  fst (create_exact_payment
         (refusing_account (frozen 1700000000) (paywall (body_402 [])))
         (premium BASE_MAINNET USDC_BASE 300) None fresh_world) =
  Raise (ValueError "refused").
Proof.
  rewrite (create_exact_payment_sign_refused
             (refusing_account (frozen 1700000000) (paywall (body_402 [])))
             (premium BASE_MAINNET USDC_BASE 300) None fresh_world
             (ValueError "refused")
             ltac:(right; reflexivity) ltac:(reflexivity)
             ltac:(reflexivity)).
  reflexivity.
Defined.

(** With a clock that does not go back between its two readings and a
    timeout that is not negative, the window of a returning call is in
    order and at least [2 * t] wide. *)
Theorem create_exact_payment_window_at_least co req amount w p w' :
  create_exact_payment co req amount w = (Ok p, w') ->
  (time_time co (clock_reads w) <= time_time co (S (clock_reads w)))%Q ->
  0 <= max_timeout_seconds req ->
  exists va vb : Z,
    payload_str "validAfter" p = Some (py_str_int va) /\
    payload_str "validBefore" p = Some (py_str_int vb) /\
    va <= vb /\ 2 * max_timeout_seconds req <= vb - va.
Proof.
  intros H Hclock Ht.
  destruct (create_exact_payment_Ok _ _ _ _ _ _ H) as (d & sg & _ & _ & ->).
  exists (first_now co w - max_timeout_seconds req),
         (second_now co w + max_timeout_seconds req).
  split; [reflexivity|]. split; [reflexivity|].
  pose proof (py_int_of_float_mono _ _ Hclock) as Hm.
  fold (first_now co w) in Hm. fold (second_now co w) in Hm. lia.
Qed.

Lemma create_exact_payment_window_at_least_witness :
  let co := fake_account crossing (paywall (body_402 [])) in
  let req := premium BASE_MAINNET USDC_BASE 300 in
  exists p w' (va vb : Z),
    create_exact_payment co req None fresh_world = (Ok p, w') /\
    payload_str "validAfter" p = Some (py_str_int va) /\
    payload_str "validBefore" p = Some (py_str_int vb) /\
    600 <= vb - va.
Proof.
  intros co req.
  outcome_of (create_exact_payment co req None fresh_world)
    ltac:(fun p w' =>
      destruct (create_exact_payment_window_at_least co req None fresh_world
                  p w' ltac:(evaluated)
                  ltac:(vm_compute; discriminate)
                  ltac:(vm_compute; discriminate))
        as (va & vb & Ha & Hb & _ & Hw);
      exists p, w', va, vb;
      split; [evaluated|]; split; [exact Ha|]; split; [exact Hb | exact Hw]).
Defined.

(** The nonce of a payload is a [bytes32] in hexadecimal: the digits after
    [0x] decode to the 32 bytes that were drawn for the call. *)
Theorem create_exact_payment_nonce_bytes co req amount w p w' :
  create_exact_payment co req amount w = (Ok p, w') ->
  exists h bs,
    payload_str "nonce" p = Some ("0x" +:+ h) /\
    unhexlify h = Some bs /\
    bs = drawn co 32 (draws w) /\
    length bs = 32%nat.
Proof.
  intros H.
  destruct (create_exact_payment_Ok _ _ _ _ _ _ H) as (d & sg & _ & _ & ->).
  exists (hexlify (drawn co 32 (draws w))), (drawn co 32 (draws w)).
  split; [reflexivity|]. split; [apply unhexlify_hexlify|].
  split; [reflexivity | apply drawn_length].
Qed.

Lemma create_exact_payment_nonce_bytes_witness :
  let co := fake_account (frozen 1700000000) (paywall (body_402 [])) in
  let req := premium BASE_MAINNET USDC_BASE 300 in
  exists p w' h bs,
    create_exact_payment co req None fresh_world = (Ok p, w') /\
    payload_str "nonce" p = Some ("0x" +:+ h) /\
    unhexlify h = Some bs /\ length bs = 32%nat.
Proof.
  intros co req.
  outcome_of (create_exact_payment co req None fresh_world)
    ltac:(fun p w' =>
      destruct (create_exact_payment_nonce_bytes co req None fresh_world p w'
                  ltac:(evaluated)) as (h & bs & Hn & Hu & _ & Hl);
      exists p, w', h, bs;
      split; [evaluated|]; split; [exact Hn|]; split; [exact Hu | exact Hl]).
Defined.

(** ** Validation of requirements *)

Lemma failing_In (k : string) (checks : list (string * bool)) :
  In (k, false) checks -> In k (failing checks).
Proof.
  induction checks as [|[k' b] checks IH]; [intros []|].
  intros [[= -> ->] | H]; cbn [failing].
  - left. reflexivity.
  - destruct b; [auto | right; auto].
Qed.

(** The checks [model_validate] makes on a dict, field by field. *)
Lemma model_validate_dict lib items :
  let checks :=
    [ ("scheme", passed (required items "scheme" validate_PaymentScheme));
      ("network", passed (required items "network" validate_PaymentNetwork));
      ("maxAmountRequired",
       passed (required items "maxAmountRequired" validate_str));
      ("resource", passed (required items "resource" validate_str));
      ("description", passed (required items "description" validate_str));
      ("mimeType", passed (required items "mimeType" validate_str));
      ("payTo", passed (required items "payTo" validate_str));
      ("maxTimeoutSeconds",
       passed (required items "maxTimeoutSeconds" (validate_int lib)));
      ("asset", passed (required items "asset" validate_str));
      ("outputSchema", passed (optional_dict items "outputSchema"));
      ("extra", passed (optional_dict items "extra")) ] in
  In false (map snd checks) ->
  PaymentRequirement_model_validate lib (PyDict items) =
  Raise (ValidationError (failing checks)).
Proof.
  unfold PaymentRequirement_model_validate. cbv zeta.
  destruct (required items "scheme" _); [|reflexivity].
  destruct (required items "network" _); [|reflexivity].
  destruct (required items "maxAmountRequired" _); [|reflexivity].
  destruct (required items "resource" _); [|reflexivity].
  destruct (required items "description" _); [|reflexivity].
  destruct (required items "mimeType" _); [|reflexivity].
  destruct (required items "payTo" _); [|reflexivity].
  destruct (required items "maxTimeoutSeconds" _); [|reflexivity].
  destruct (required items "asset" _); [|reflexivity].
  destruct (optional_dict items "outputSchema"); [|reflexivity].
  destruct (optional_dict items "extra"); [|reflexivity].
  cbn. intuition discriminate.
Qed.

(** A dict that lacks one of the nine required wire keys is rejected, and
    the key is among the fields reported; the Python name of a field does
    not stand in for its alias. *)
Theorem model_validate_missing_key lib items k :
  In k required_names ->
  dict_get k items = None ->
  exists fields,
    PaymentRequirement_model_validate lib (PyDict items) =
    Raise (ValidationError fields) /\ In k fields.
Proof.
  intros Hin Hget.
  assert (forall A (v : pyobj -> option A), required items k v = None)
    as Hreq by (intros; unfold required; rewrite Hget; reflexivity).
  eexists. split.
  - apply model_validate_dict. cbn [map snd]. cbn [required_names In] in Hin.
    repeat (destruct Hin as [<- | Hin];
            [rewrite Hreq; cbn [passed In]; tauto|]).
    destruct Hin.
  - apply failing_In. cbn [required_names In] in Hin.
    repeat (destruct Hin as [<- | Hin];
            [rewrite Hreq; cbn [passed In]; tauto|]).
    destruct Hin.
Qed.

Lemma model_validate_missing_key_witness :
  exists fields,
    PaymentRequirement_model_validate plain_lib
      (PyDict [ ("scheme", PyStr "exact"); ("network", PyStr "base-mainnet");
                ("max_amount_required", PyStr "10000");
                ("resource", PyStr "/premium"); ("description", PyStr "d");
                ("mimeType", PyStr "application/json");
                ("payTo", PyStr "0xAbc..."); ("maxTimeoutSeconds", PyInt 300);
                ("asset", PyStr USDC_BASE) ]) =
    Raise (ValidationError fields) /\ In "maxAmountRequired" fields.
Proof.
  apply model_validate_missing_key.
  - cbn. tauto.
  - reflexivity.
Defined.

(** Validation reads the eleven wire keys and nothing else: two dicts that
    agree on them validate alike, whatever other keys they hold. *)
Theorem model_validate_ignores_other_keys lib items items' :
  (forall k, In k wire_names -> dict_get k items = dict_get k items') ->
  PaymentRequirement_model_validate lib (PyDict items) =
  PaymentRequirement_model_validate lib (PyDict items').
Proof.
  intros H.
  assert (forall k A (v : pyobj -> option A),
            In k wire_names -> required items k v = required items' k v)
    as Hreq by (intros k A v Hk; unfold required; rewrite (H k Hk);
                reflexivity).
  assert (forall k, In k wire_names ->
            optional_dict items k = optional_dict items' k)
    as Hopt by (intros k Hk; unfold optional_dict; rewrite (H k Hk);
                reflexivity).
  unfold PaymentRequirement_model_validate. cbv zeta.
  rewrite !Hreq by (cbn; tauto).
  rewrite !Hopt by (cbn; tauto).
  reflexivity.
Qed.

Lemma model_validate_ignores_other_keys_witness :
  PaymentRequirement_model_validate plain_lib
    (PyDict
       [ ("note", PyStr "n");
         ("scheme", PyStr "exact"); ("network", PyStr "base-mainnet");
         ("maxAmountRequired", PyStr "10000"); ("resource", PyStr "/premium");
         ("description", PyStr "d"); ("mimeType", PyStr "application/json");
         ("payTo", PyStr "0xAbc..."); ("maxTimeoutSeconds", PyInt 300);
         ("asset", PyStr USDC_BASE); ("x-unknown", PyInt 7) ]) =
  Ok (premium BASE_MAINNET USDC_BASE 300).
Proof.
  rewrite (model_validate_ignores_other_keys plain_lib _
             [ ("scheme", PyStr "exact"); ("network", PyStr "base-mainnet");
               ("maxAmountRequired", PyStr "10000");
               ("resource", PyStr "/premium"); ("description", PyStr "d");
               ("mimeType", PyStr "application/json");
               ("payTo", PyStr "0xAbc..."); ("maxTimeoutSeconds", PyInt 300);
               ("asset", PyStr USDC_BASE) ]).
  - reflexivity.
  - intros k Hk. cbn in Hk.
    repeat (destruct Hk as [<- | Hk]; [reflexivity|]). destruct Hk.
Defined.

(** Every requirement, written on the wire under the aliases, validates
    back to itself: no field is lost or changed on the way. *)
Theorem model_validate_wire_of lib (r : PaymentRequirement) :
  PaymentRequirement_model_validate lib (wire_of r) = Ok r.
Proof.
  destruct r as [s n ? ? ? ? ? ? ? [os|] [ex|]]; destruct s, n; reflexivity.
Qed.

Lemma required_str items k s :
  required items k validate_str = Some s -> dict_get k items = Some (PyStr s).
Proof.
  unfold required. destruct (dict_get k items) as [o|]; [|discriminate].
  destruct o; try discriminate. intros [= ->]. reflexivity.
Qed.

(** A parsed requirement holds the strings of the body as they are, the
    integer of the body when the body gives an integer, and the members
    whose values the body names. *)
Theorem model_validate_verbatim lib items r :
  PaymentRequirement_model_validate lib (PyDict items) = Ok r ->
  dict_get "maxAmountRequired" items = Some (PyStr (max_amount_required r)) /\
  dict_get "resource" items = Some (PyStr (resource r)) /\
  dict_get "description" items = Some (PyStr (description r)) /\
  dict_get "mimeType" items = Some (PyStr (mime_type r)) /\
  dict_get "payTo" items = Some (PyStr (pay_to r)) /\
  dict_get "asset" items = Some (PyStr (asset r)) /\
  (forall n, dict_get "maxTimeoutSeconds" items = Some (PyInt n) ->
             max_timeout_seconds r = n) /\
  (forall s, dict_get "scheme" items = Some (PyStr s) ->
             s = PaymentScheme_value (scheme r)) /\
  (forall s, dict_get "network" items = Some (PyStr s) ->
             s = PaymentNetwork_value (network r)).
Proof.
  unfold PaymentRequirement_model_validate. cbv zeta.
  destruct (required items "scheme" _) as [v1|] eqn:E1; [|discriminate].
  destruct (required items "network" _) as [v2|] eqn:E2; [|discriminate].
  destruct (required items "maxAmountRequired" _) as [v3|] eqn:E3;
    [|discriminate].
  destruct (required items "resource" _) as [v4|] eqn:E4; [|discriminate].
  destruct (required items "description" _) as [v5|] eqn:E5; [|discriminate].
  destruct (required items "mimeType" _) as [v6|] eqn:E6; [|discriminate].
  destruct (required items "payTo" _) as [v7|] eqn:E7; [|discriminate].
  destruct (required items "maxTimeoutSeconds" _) as [v8|] eqn:E8;
    [|discriminate].
  destruct (required items "asset" _) as [v9|] eqn:E9; [|discriminate].
  destruct (optional_dict items "outputSchema") as [v10|]; [|discriminate].
  destruct (optional_dict items "extra") as [v11|]; [|discriminate].
  intros [= <-]. cbn.
  repeat (split; [apply required_str; assumption|]).
  split; [|split].
  - intros n Hn. unfold required in E8. rewrite Hn in E8. cbn [validate_int] in E8.
    congruence.
  - intros s Hs. unfold required in E1. rewrite Hs in E1.
    cbn [validate_PaymentScheme] in E1.
    destruct (String.eqb_spec s "exact") as [E|E]; [|discriminate E1].
    rewrite E. destruct v1. reflexivity.
  - intros s Hs. unfold required in E2. rewrite Hs in E2.
    cbn [validate_PaymentNetwork] in E2.
    destruct (String.eqb_spec s "base-sepolia") as [E|_];
      [rewrite E; injection E2 as <-; reflexivity|].
    destruct (String.eqb_spec s "base-mainnet") as [E|_];
      [rewrite E; injection E2 as <-; reflexivity|].
    destruct (String.eqb_spec s "ethereum-sepolia") as [E|_];
      [rewrite E; injection E2 as <-; reflexivity|].
    destruct (String.eqb_spec s "ethereum-mainnet") as [E|_];
      [rewrite E; injection E2 as <-; reflexivity|].
    discriminate E2.
Qed.

Lemma model_validate_verbatim_witness :
  dict_get "payTo"
    [ ("scheme", PyStr "exact"); ("network", PyStr "base-mainnet");
      ("maxAmountRequired", PyStr "10000"); ("resource", PyStr "/premium");
      ("description", PyStr "d"); ("mimeType", PyStr "application/json");
      ("payTo", PyStr "0xAbc..."); ("maxTimeoutSeconds", PyInt 300);
      ("asset", PyStr USDC_BASE) ] =
  Some (PyStr (pay_to (premium BASE_MAINNET USDC_BASE 300))).
Proof.
  destruct (model_validate_verbatim plain_lib
              [ ("scheme", PyStr "exact"); ("network", PyStr "base-mainnet");
                ("maxAmountRequired", PyStr "10000");
                ("resource", PyStr "/premium"); ("description", PyStr "d");
                ("mimeType", PyStr "application/json");
                ("payTo", PyStr "0xAbc..."); ("maxTimeoutSeconds", PyInt 300);
                ("asset", PyStr USDC_BASE) ]
              (premium BASE_MAINNET USDC_BASE 300) ltac:(reflexivity))
    as (_ & _ & _ & _ & H & _).
  exact H.
Defined.

(** ** More on the client *)

Lemma request_world lib co method url kwargs w :
  snd (request lib co method url kwargs w) =
  after_request w (request_sent method url kwargs w).
Proof. rewrite request_eq. reflexivity. Qed.

(** A response whose status is not 402 is returned as it is, by [request]
    and by [auto_pay_request] alike: one request was sent, with the
    caller's method, URL and keyword arguments, and nothing was printed,
    drawn or signed. *)
Theorem auto_pay_request_passes_through lib co method url kwargs w :
  let rq := request_sent method url kwargs w in
  let response := session_request co (sent w) rq in
  status_code response <> 402 ->
  request lib co method url kwargs w = (Ok response, after_request w rq) /\
  auto_pay_request lib co method url kwargs w =
    (Ok response, after_request w rq).
Proof.
  intros rq response Hs.
  assert (request lib co method url kwargs w =
          (Ok response, after_request w rq)) as E.
  { rewrite request_eq. cbv zeta. fold rq. fold response.
    destruct (Z.eqb_spec (status_code response) 402) as [E|_];
      [contradiction | reflexivity]. }
  split; [exact E|].
  unfold auto_pay_request, try_except. rewrite E. reflexivity.
Qed.

Lemma auto_pay_request_passes_through_witness :
  auto_pay_request plain_lib
    (fake_account (frozen 1700000000)
       (always {| status_code := 200; json := Ok (PyDict []) |}))
    "GET" "/free" with_headers fresh_world =
  (Ok {| status_code := 200; json := Ok (PyDict []) |},
   after_request fresh_world
     (request_sent "GET" "/free" with_headers fresh_world)).
Proof.
  apply (auto_pay_request_passes_through plain_lib
           (fake_account (frozen 1700000000)
              (always {| status_code := 200; json := Ok (PyDict []) |}))
           "GET" "/free" with_headers fresh_world).
  vm_compute. discriminate.
Defined.

(** A 402 whose body is JSON but not an object, or whose [accepts] cannot
    be iterated, is not reported as a malformed response: the [TypeError]
    of the failed operation leaves [request], and [auto_pay_request] lets
    it through. *)
Theorem request_type_error_escapes lib co method url kwargs w o :
  let rq := request_sent method url kwargs w in
  let response := session_request co (sent w) rq in
  status_code response = 402 ->
  json response = Ok o ->
  is_dict o = false \/
  (exists items a,
     o = PyDict items /\ dict_get "accepts" items = Some a /\
     is_iterable a = false) ->
  exists msg,
    request lib co method url kwargs w =
      (Raise (TypeError msg), after_request w rq) /\
    auto_pay_request lib co method url kwargs w =
      (Raise (TypeError msg), after_request w rq).
Proof.
  intros rq response Hs Hj Ho.
  assert (exists msg,
            request lib co method url kwargs w =
            (Raise (TypeError msg), after_request w rq)) as [msg E].
  { rewrite request_eq. cbv zeta. fold rq. fold response.
    rewrite Hs. cbn [Z.eqb Pos.eqb].
    unfold parse_requirements. rewrite Hj. cbn [rbind].
    destruct Ho as [Hd | (items & a & -> & Hget & Hi)].
    - destruct o; try discriminate Hd; cbn; eauto.
    - cbn [getitem]. rewrite Hget. cbn [rbind].
      destruct a; try discriminate Hi; cbn; eauto. }
  exists msg. split; [exact E|].
  unfold auto_pay_request, try_except. rewrite E. reflexivity.
Qed.

Lemma request_type_error_escapes_witness :
  (exists msg,
     fst (auto_pay_request plain_lib
            (fake_account (frozen 1700000000)
               (always {| status_code := 402; json := Ok (PyList []) |}))
            "GET" "/premium" no_kwargs fresh_world) =
     Raise (TypeError msg)) /\
  (exists msg,
     fst (auto_pay_request plain_lib
            (fake_account (frozen 1700000000)
               (always {| status_code := 402;
                          json := Ok (PyDict [("accepts", PyNone)]) |}))
            "GET" "/premium" no_kwargs fresh_world) =
     Raise (TypeError msg)).
Proof.
  split.
  - destruct (request_type_error_escapes plain_lib
                (fake_account (frozen 1700000000)
                   (always {| status_code := 402; json := Ok (PyList []) |}))
                "GET" "/premium" no_kwargs fresh_world (PyList [])
                ltac:(reflexivity) ltac:(reflexivity)
                ltac:(left; reflexivity)) as (msg & _ & H).
    exists msg. rewrite H. reflexivity.
  - destruct (request_type_error_escapes plain_lib
                (fake_account (frozen 1700000000)
                   (always {| status_code := 402;
                              json := Ok (PyDict [("accepts", PyNone)]) |}))
                "GET" "/premium" no_kwargs fresh_world
                (PyDict [("accepts", PyNone)])
                ltac:(reflexivity) ltac:(reflexivity)
                ltac:(right; exists [("accepts", PyNone)], PyNone;
                      repeat split)) as (msg & _ & H).
    exists msg. rewrite H. reflexivity.
Defined.

(** Where the body does validate as a [PaymentRequiredResponse], [request]
    signals the requirements that model would hold, in the same order. *)
Theorem request_agrees_with_response_model lib co method url kwargs w body
    resp :
  let rq := request_sent method url kwargs w in
  let response := session_request co (sent w) rq in
  status_code response = 402 ->
  json response = Ok body ->
  PaymentRequiredResponse_model_validate lib body = Ok resp ->
  request lib co method url kwargs w =
  (Raise (X402PaymentRequiredError (Payment_required body) (accepts resp)),
   after_request w rq).
Proof.
  intros rq response Hs Hj Hv.
  rewrite request_eq. cbv zeta. fold rq. fold response.
  rewrite Hs. cbn [Z.eqb Pos.eqb].
  unfold parse_requirements. rewrite Hj. cbn [rbind].
  unfold PaymentRequiredResponse_model_validate in Hv.
  destruct body as [| | | | | |items| |]; try discriminate Hv.
  cbv zeta in Hv.
  destruct (required items "x402Version" _) as [v1|]; [|discriminate Hv].
  destruct (required items "accepts" _) as [v2|] eqn:Ea; [|discriminate Hv].
  destruct (optional_str items "error") as [v3|]; [|discriminate Hv].
  injection Hv as <-. cbn [accepts].
  unfold required in Ea. cbn [getitem].
  destruct (dict_get "accepts" items) as [a|]; [|discriminate Ea].
  unfold validate_accepts in Ea.
  destruct a; try discriminate Ea.
  cbn [rbind iter].
  destruct (validate_each lib l) as [rs|e]; [|discriminate Ea].
  injection Ea as <-. reflexivity.
Qed.

Lemma request_agrees_with_response_model_witness :
  let body := body_402 [premium_json "base-mainnet" USDC_BASE 300;
                        premium_json "base-sepolia" USDC_BASE_SEPOLIA 60] in
  fst (request plain_lib (fake_account (frozen 1700000000) (always_402 body))
         "GET" "/premium" no_kwargs fresh_world) =
  Raise (X402PaymentRequiredError (Payment_required body)
           [premium BASE_MAINNET USDC_BASE 300;
            premium BASE_SEPOLIA USDC_BASE_SEPOLIA 60]).
Proof.
  intros body.
  rewrite (request_agrees_with_response_model plain_lib
             (fake_account (frozen 1700000000) (always_402 body))
             "GET" "/premium" no_kwargs fresh_world body
             {| response_x402_version := 1;
                accepts := [premium BASE_MAINNET USDC_BASE 300;
                            premium BASE_SEPOLIA USDC_BASE_SEPOLIA 60];
                error := None |}
             ltac:(reflexivity) ltac:(reflexivity) ltac:(evaluated)).
  reflexivity.
Defined.

(** In one call [auto_pay_request] asks the account for at most one
    signature, and only for the first requirement of a 402: the message
    signed pays that requirement's [pay_to] its [max_amount_required],
    from the account's address. *)
Theorem auto_pay_request_signs_first_only lib co method url kwargs w :
  let w' := snd (auto_pay_request lib co method url kwargs w) in
  signatures_requested (trace w') = signatures_requested (trace w) \/
  exists message first others m,
    fst (request lib co method url kwargs w) =
      Raise (X402PaymentRequiredError message (first :: others)) /\
    signatures_requested (trace w') =
      (signatures_requested (trace w) ++ [(usdc_base_domain, m)])%list /\
    msg_from m = account_address co /\
    msg_to m = pay_to first /\
    msg_value m = max_amount_required first.
Proof.
  cbv zeta.
  pose proof (request_world lib co method url kwargs w) as Hw.
  destruct (request lib co method url kwargs w) as [r w1] eqn:E.
  cbn [snd] in Hw. subst w1.
  assert (signatures_requested
            (trace (after_request w (request_sent method url kwargs w))) =
          signatures_requested (trace w)) as Hsame.
  { cbn [after_request trace]. rewrite signatures_requested_app.
    cbn. apply app_nil_r. }
  destruct r as [response | e].
  { left. unfold auto_pay_request, try_except. rewrite E. exact Hsame. }
  destruct e as [| | | | | message requirements];
    try (left; unfold auto_pay_request, try_except; rewrite E; exact Hsame).
  destruct requirements as [|first others].
  { left. unfold auto_pay_request, try_except. rewrite E. exact Hsame. }
  rewrite (auto_pay_request_delegates lib co method url kwargs w message
             first others) by (rewrite E; reflexivity).
  rewrite pay_and_request_eq.
  set (w2 := after_print
               (after_request w (request_sent method url kwargs w)) first).
  assert (signatures_requested (trace w2) = signatures_requested (trace w))
    as Hw2.
  { subst w2. cbn [after_print trace]. rewrite signatures_requested_app.
    cbn [signatures_requested]. rewrite app_nil_r. exact Hsame. }
  pose proof (create_exact_payment_trace co first None w2) as Ht.
  cbv zeta in Ht.
  destruct (create_exact_payment co first None w2) as [[payment|e] w3];
    cbn [snd] in *.
  - destruct Ht as [Ht | (_ & _ & Ht)].
    + left. destruct (kw_headers kwargs); cbn [after_new_dict trace];
        rewrite Ht; exact Hw2.
    + right.
      exists message, first, others,
        (exact_message co first (amount_paid first None) w2).
      split; [reflexivity|]. split; [|repeat split].
      destruct (kw_headers kwargs); cbn [after_new_dict trace];
        rewrite Ht, signatures_requested_app, Hw2; reflexivity.
  - destruct Ht as [Ht | (_ & _ & Ht)].
    + left. rewrite Ht. exact Hw2.
    + right.
      exists message, first, others,
        (exact_message co first (amount_paid first None) w2).
      split; [reflexivity|]. split; [|repeat split].
      rewrite Ht, signatures_requested_app, Hw2. reflexivity.
Qed.
